(** * The status-transition notification pipeline of the admin dashboard

  A shallow embedding of [src/lib/whatsapp.js] (the channel adapter
  [sendWhatsAppMessage] and the notifier [sendStatusUpdateMessage]) and
  of the registry operations of [src/App.jsx] ([fetchAppointments],
  [updateStatus], the derived [stats]), followed by the properties of the
  specification that concern them.

  The JavaScript is asynchronous but single-threaded; every [await] is
  modelled as the sequential continuation of the awaited call, in a
  state-and-exception monad over the React state and a trace of the
  effects on the outside world.  *)

From Stdlib Require Import String Ascii List ZArith Lia Bool DecimalString.
Import ListNotations.
Open Scope string_scope.

(* ================================================================== *)
(** ** JavaScript values *)
(* ================================================================== *)

Module JS.

#[local] Set Warnings "-register-all".

(** The values that flow through the pipeline.  [VNum] holds an
    integral number (of magnitude below 10^21, where [ToString] is the
    plain decimal numeral), [VObj] a plain object as its own enumerable
    properties in order, [VError] an [Error] instance by its [name] and
    [message]. *)
Inductive value : Type :=
| VUndefined
| VNull
| VBool (b : bool)
| VNum (n : Z)
| VStr (s : string)
| VArr (items : list value)
| VObj (fields : list (string * value))
| VError (name message : string).

(** ECMAScript [ToBoolean]: what [if (v)], [!v] and [v || w] test. *)
Definition truthy (v : value) : bool :=
  match v with
  | VUndefined | VNull => false
  | VBool b => b
  | VNum n => negb (n =? 0)%Z
  | VStr s => negb (s =? "")
  | VArr _ | VObj _ | VError _ _ => true
  end.

(** ECMAScript [ToString], as a template literal applies it to an
    interpolated value. *)
Fixpoint to_string (v : value) : string :=
  match v with
  | VUndefined => "undefined"
  | VNull => "null"
  | VBool true => "true"
  | VBool false => "false"
  | VNum n => NilZero.string_of_int (Z.to_int n)
  | VStr s => s
  | VArr items =>
      String.concat ","
        (map (fun x => match x with
                       | VUndefined | VNull => ""
                       | _ => to_string x
                       end) items)
  | VObj _ => "[object Object]"
  | VError name message =>
      if name =? "" then message
      else if message =? "" then name
      else name ++ ": " ++ message
  end.

(** Property read [o.k] on a plain object; [None] where the read yields
    no own property (and on anything that is not a plain object). *)
Fixpoint lookup (k : string) (fields : list (string * value)) : option value :=
  match fields with
  | [] => None
  | (k', v) :: rest => if k' =? k then Some v else lookup k rest
  end.

Definition get (k : string) (v : value) : option value :=
  match v with
  | VObj fields => lookup k fields
  | _ => None
  end.

(** The character class [\d] of a regular expression without the
    unicode flag: the ten ASCII digits. *)
Definition is_digit (c : ascii) : bool :=
  let n := nat_of_ascii c in (48 <=? n)%nat && (n <=? 57)%nat.

(** [s.replace(/\D/g, '')]: one left-to-right scan that drops every
    character outside [\d].  A string is held as its UTF-8 bytes; the
    bytes of a character outside ASCII are all above 127, so they are
    dropped exactly as the UTF-16 code units of that character are, and
    the number of characters kept is the same. *)
Fixpoint replace_non_digits (s : string) : string :=
  match s with
  | EmptyString => EmptyString
  | String c rest =>
      if is_digit c then String c (replace_non_digits rest)
      else replace_non_digits rest
  end.

End JS.
Import JS.

(* ================================================================== *)
(** ** The host: configuration, network, record store *)
(* ================================================================== *)

Module Host.

(** The argument of [fetch(url, init)].  [body] is the object handed to
    [JSON.stringify], before serialisation. *)
Record request : Type := {
  url : string;
  method : string;
  headers : list (string * string);
  body : value
}.

(** What [await response.json()] does: resolve with the parsed payload
    or reject. *)
Inductive json_outcome : Type :=
| json_resolves (data : value)
| json_rejects (reason : value).

Record response : Type := {
  ok : bool;
  json : json_outcome
}.

(** What [await fetch(...)] does: resolve with a response (of any HTTP
    status) or reject with a transport error. *)
Inductive fetch_outcome : Type :=
| fetch_resolves (r : response)
| fetch_rejects (reason : value).

(** A row of the [appointments] table. *)
Record appointment : Type := {
  id : string;
  full_name : string;
  phone : value;
  email : value;
  preferred_date : value;
  location : value;
  notes : value;
  status : string;
  created_at : string
}.

(** [{ ...apt, status: newStatus }] *)
Definition with_status (apt : appointment) (newStatus : string) : appointment :=
  {| id := id apt; full_name := full_name apt; phone := phone apt;
     email := email apt; preferred_date := preferred_date apt;
     location := location apt; notes := notes apt;
     status := newStatus; created_at := created_at apt |}.

(** What awaiting a query of the store client does: resolve with
    [{ data, error }] ([data] is [null] or the rows) or reject. *)
Inductive store_outcome : Type :=
| store_resolves (data : option (list appointment)) (error : value)
| store_rejects (reason : value).

(** Everything the two source files take from their environment. *)
Record host : Type := {
  (** [import.meta.env.VITE_WHATSAPP_TOKEN] *)
  WHATSAPP_TOKEN : value;
  (** [import.meta.env.VITE_WHATSAPP_PHONE_NUMBER_ID] *)
  PHONE_NUMBER_ID : value;
  (** [new Date(d).toLocaleDateString()], which depends on the locale
      and the time zone of the browser *)
  toLocaleDateString : value -> string;
  (** the wording of the [TypeError] the engine raises for [to.replace]
      on a [to] that has no such method *)
  type_error_message : value -> string;
  (** the network's answer to a request *)
  fetch : request -> fetch_outcome;
  (** [supabase.from('appointments').select('*').order('created_at',
      { ascending: false })] *)
  select_appointments : store_outcome;
  (** [supabase.from('appointments').update({ status }).eq('id', id)] *)
  update_appointment : string -> string -> store_outcome
}.

(** What the derived views take from the browser's clock and date parser.
    Time values are milliseconds since the epoch, as [getTime()] gives
    them. *)
Record clock : Type := {
  (** [new Date().getTime()] at the render *)
  today : Z;
  (** the time value of [new Date(d)]; [None] for an invalid date, whose
      time value is [NaN] *)
  time_value : value -> option Z
}.

(** ECMAScript [TimeClip]: a [Date] holds a time value of magnitude at
    most 8.64e15, and is invalid beyond. *)
Definition time_clip (t : Z) : option Z :=
  if (Z.abs t <=? 8640000000000000)%Z then Some t else None.

(** The effects on the outside world, in the order they happen.
    [notifier_called] is a ghost event: it marks each entry into
    [sendStatusUpdateMessage], so that invocations can be counted. *)
Inductive event : Type :=
| console_warn (label : string) (arg : value)
| console_error (label : string) (arg : value)
| fetch_sent (req : request)
| store_select
| store_update (id : string) (status : string)
| alert (text : string)
| notifier_called (apt : appointment) (status : string).

(** The React state of [App] (one field per [useState]) and the trace. *)
Record machine : Type := {
  appointments : list appointment;
  loading : bool;
  error : value;
  filter : string;
  refreshing : bool;
  trace : list event
}.

(** The state right after the first render: the [useState] defaults. *)
Definition initial : machine :=
  {| appointments := []; loading := true; error := VNull;
     filter := "all"; refreshing := false; trace := [] |}.

(** *** Completions and the monad *)

Inductive outcome (A : Type) : Type :=
| Returned (a : A)
| Thrown (exn : value).
Arguments Returned {A} a.
Arguments Thrown {A} exn.

Definition M (A : Type) : Type := machine -> outcome A * machine.

Definition ret {A} (a : A) : M A := fun m => (Returned a, m).

Definition throw {A} (exn : value) : M A := fun m => (Thrown exn, m).

Definition bind {A B} (c : M A) (k : A -> M B) : M B :=
  fun m =>
    match c m with
    | (Returned a, m') => k a m'
    | (Thrown exn, m') => (Thrown exn, m')
    end.

(** [try { body } catch (e) { handler }] *)
Definition try_catch {A} (body : M A) (handler : value -> M A) : M A :=
  fun m =>
    match body m with
    | (Returned a, m') => (Returned a, m')
    | (Thrown exn, m') => handler exn m'
    end.

(** [try { body } finally { cleanup }]: the cleanup runs on both exits
    and, when it completes normally, the completion of the body stands. *)
Definition try_finally {A} (body : M A) (cleanup : M unit) : M A :=
  fun m =>
    match body m with
    | (r, m') =>
        match cleanup m' with
        | (Returned _, m'') => (r, m'')
        | (Thrown exn, m'') => (Thrown exn, m'')
        end
    end.

(** *** Primitive effects *)

Definition emit (e : event) : M unit :=
  fun m =>
    (Returned tt,
     {| appointments := appointments m; loading := loading m;
        error := error m; filter := filter m;
        refreshing := refreshing m; trace := trace m ++ [e] |}).

Definition setAppointments (f : list appointment -> list appointment) : M unit :=
  fun m =>
    (Returned tt,
     {| appointments := f (appointments m); loading := loading m;
        error := error m; filter := filter m;
        refreshing := refreshing m; trace := trace m |}).

Definition setLoading (b : bool) : M unit :=
  fun m =>
    (Returned tt,
     {| appointments := appointments m; loading := b;
        error := error m; filter := filter m;
        refreshing := refreshing m; trace := trace m |}).

Definition setError (v : value) : M unit :=
  fun m =>
    (Returned tt,
     {| appointments := appointments m; loading := loading m;
        error := v; filter := filter m;
        refreshing := refreshing m; trace := trace m |}).

Definition setRefreshing (b : bool) : M unit :=
  fun m =>
    (Returned tt,
     {| appointments := appointments m; loading := loading m;
        error := error m; filter := filter m;
        refreshing := b; trace := trace m |}).

(** [await fetch(url, init)]: the request goes out, then the promise
    settles. *)
Definition await_fetch (h : host) (req : request) : M response :=
  bind (emit (fetch_sent req))
       (fun _ => match fetch h req with
                 | fetch_resolves r => ret r
                 | fetch_rejects reason => throw reason
                 end).

(** [await response.json()] *)
Definition await_json (r : response) : M value :=
  match json r with
  | json_resolves data => ret data
  | json_rejects reason => throw reason
  end.

(** Awaiting a store query: resolves with the pair [(data, error)]. *)
Definition await_store (e : event) (o : store_outcome)
  : M (option (list appointment) * value) :=
  bind (emit e)
       (fun _ => match o with
                 | store_resolves data err => ret (data, err)
                 | store_rejects reason => throw reason
                 end).

(** [to.replace(/\D/g, '')]: a method call, so a [TypeError] on
    anything that is not a string. *)
Definition call_replace_non_digits (h : host) (to : value) : M string :=
  match to with
  | VStr s => ret (replace_non_digits s)
  | _ => throw (VError "TypeError" (type_error_message h to))
  end.

End Host.
Import Host.

Declare Scope js_scope.
Delimit Scope js_scope with js.
Notation "x <- c ;; k" := (bind c (fun x => k))
(at level 61, c at next level, right associativity) : js_scope.
Notation "c ;; k" := (bind c (fun _ => k))
(at level 61, right associativity) : js_scope.
Open Scope js_scope.

(* ================================================================== *)
(** ** [src/lib/whatsapp.js] *)
(* ================================================================== *)

Module WhatsApp.

Definition VERSION : string := "v18.0".

(** [cleanPhone.length === 10 ? `91${cleanPhone}` : cleanPhone] *)
Definition formattedPhone (cleanPhone : string) : string :=
  if (String.length cleanPhone =? 10)%nat then "91" ++ cleanPhone
  else cleanPhone.

(** The request [sendWhatsAppMessage] builds for a destination that is
    already formatted. *)
Definition message_request (h : host) (formatted : string) (message : string)
  : request :=
  {| url := "https://graph.facebook.com/" ++ VERSION ++ "/"
            ++ to_string (PHONE_NUMBER_ID h) ++ "/messages";
     method := "POST";
     headers := [("Authorization", "Bearer " ++ to_string (WHATSAPP_TOKEN h));
                 ("Content-Type", "application/json")];
     body := VObj [("messaging_product", VStr "whatsapp");
                   ("to", VStr formatted);
                   ("type", VStr "text");
                   ("text", VObj [("body", VStr message)])] |}.

Definition sendWhatsAppMessage (h : host) (to : value) (message : string)
  : M value :=
  if negb (truthy (WHATSAPP_TOKEN h)) || negb (truthy (PHONE_NUMBER_ID h))
  then
    emit (console_warn "WhatsApp credentials missing. Message not sent:"
            (VObj [("to", to); ("message", VStr message)])) ;;
    ret (VObj [("success", VBool false); ("error", VStr "Credentials missing")])
  else
    try_catch
      (cleanPhone <- call_replace_non_digits h to ;;
       response <- await_fetch h
                     (message_request h (formattedPhone cleanPhone) message) ;;
       data <- await_json response ;;
       if negb (ok response) then
         emit (console_error "WhatsApp API Error:" data) ;;
         ret (VObj [("success", VBool false); ("error", data)])
       else
         ret (VObj [("success", VBool true); ("data", data)]))
      (fun error =>
         emit (console_error "WhatsApp Service Error:" error) ;;
         ret (VObj [("success", VBool false); ("error", error)])).

(** [preferred_date ? new Date(preferred_date).toLocaleDateString()
                    : 'the requested date'] *)
Definition dateStr (h : host) (preferred_date : value) : string :=
  if truthy preferred_date then toLocaleDateString h preferred_date
  else "the requested date".

(** The three [case] bodies of the [switch]. *)
Definition confirmed_message (full_name dateStr : string) (location : value)
  : string :=
  "Hello " ++ full_name
  ++ ", your appointment with Dr. Vaibbhav Guray on " ++ dateStr
  ++ " at our " ++ to_string location
  ++ " center has been CONFIRMED. We look forward to seeing you!".

Definition cancelled_message (full_name dateStr : string) : string :=
  "Hello " ++ full_name
  ++ ", we are sorry to inform you that your appointment with Dr. Vaibbhav Guray on "
  ++ dateStr
  ++ " has been CANCELLED. Please contact us to reschedule.".

Definition completed_message (full_name : string) : string :=
  "Hello " ++ full_name
  ++ ", thank you for visiting Dr. Vaibbhav Guray today! We hope you have a great day. Feel free to contact us for any follow-up concerns.".

Definition sendStatusUpdateMessage (h : host) (appointment : appointment)
  (status : string) : M value :=
  emit (notifier_called appointment status) ;;
  let dateStr := dateStr h (preferred_date appointment) in
  if status =? "confirmed" then
    sendWhatsAppMessage h (phone appointment)
      (confirmed_message (full_name appointment) dateStr (location appointment))
  else if status =? "cancelled" then
    sendWhatsAppMessage h (phone appointment)
      (cancelled_message (full_name appointment) dateStr)
  else if status =? "completed" then
    sendWhatsAppMessage h (phone appointment)
      (completed_message (full_name appointment))
  else
    ret VUndefined.

End WhatsApp.
Import WhatsApp.

(* ================================================================== *)
(** ** [src/App.jsx] *)
(* ================================================================== *)

Module App.

Definition fetchAppointments (h : host) : M unit :=
  try_finally
    (try_catch
       (setRefreshing true ;;
        r <- await_store store_select (select_appointments h) ;;
        let '(data, error) := r in
        if truthy error then throw error
        else
          setAppointments
            (fun _ => match data with Some rows => rows | None => [] end) ;;
          setError VNull)
       (fun err =>
          emit (console_error "Error fetching appointments:" err) ;;
          setError (VStr "Failed to load appointments. Please try again.")))
    (setLoading false ;; setRefreshing false).

(** [apt.id === id ? { ...apt, status: newStatus } : apt] *)
Definition patch (id newStatus : string) (apt : appointment) : appointment :=
  if Host.id apt =? id then with_status apt newStatus else apt.

(** [['confirmed', 'cancelled', 'completed'].includes(newStatus)] *)
Definition notification_worthy (newStatus : string) : bool :=
  existsb (String.eqb newStatus) ["confirmed"; "cancelled"; "completed"].

(** [updateStatus] closes over the [appointments] of the render it was
    created in ([rendered]); the functional update of [setAppointments]
    works on the state current at that moment. *)
Definition updateStatus (h : host) (rendered : list appointment)
  (id newStatus : string) : M unit :=
  try_catch
    (let appointment := find (fun a => Host.id a =? id) rendered in
     r <- await_store (store_update id newStatus)
            (update_appointment h id newStatus) ;;
     let '(_, error) := r in
     if truthy error then throw error
     else
       setAppointments (map (patch id newStatus)) ;;
       match appointment with
       | Some apt =>
           if notification_worthy newStatus then
             sendStatusUpdateMessage h apt newStatus ;; ret tt
           else ret tt
       | None => ret tt
       end)
    (fun err =>
       emit (console_error "Error updating status:" err) ;;
       emit (alert "Failed to update status. Please try again.")).

(** The counts shown on the stat tiles. *)
Record counts : Type := {
  total : nat;
  pending : nat;
  confirmed : nat;
  completed : nat;
  cancelled : nat
}.

Definition count_status (s : string) (appointments : list appointment) : nat :=
  List.length (List.filter (fun a => status a =? s) appointments).

Definition stats (appointments : list appointment) : counts :=
  {| total := List.length appointments;
     pending := count_status "pending" appointments;
     confirmed := count_status "confirmed" appointments;
     completed := count_status "completed" appointments;
     cancelled := count_status "cancelled" appointments |}.

(** [appointments.filter(apt => { if (filter === 'all') return true;
    return apt.status === filter; })] *)
Definition filteredAppointments (filter : string)
  (appointments : list appointment) : list appointment :=
  List.filter
    (fun apt => if filter =? "all" then true else status apt =? filter)
    appointments.

(** [new Date(today.getTime() + 7 * 24 * 60 * 60 * 1000)] *)
Definition nextWeek (c : clock) : option Z :=
  time_clip (today c + 7 * 24 * 60 * 60 * 1000)%Z.

(** The callback of the filter that gives [upcomingAppointments].  A
    relational comparison of two [Date]s compares their time values and
    is false when one of them is [NaN]. *)
Definition is_upcoming (c : clock) (apt : appointment) : bool :=
  if negb (truthy (preferred_date apt)) then false
  else
    let aptDate := time_value c (preferred_date apt) in
    match aptDate with
    | Some t => (today c <=? t)%Z
    | None => false
    end
    && match aptDate, nextWeek c with
       | Some t, Some w => (t <=? w)%Z
       | _, _ => false
       end
    && ((status apt =? "pending") || (status apt =? "confirmed")).

Definition upcomingAppointments (c : clock) (appointments : list appointment)
  : list appointment :=
  List.filter (is_upcoming c) appointments.

(** The own properties of the [classes] object of [getStatusClass]. *)
Definition classes : list (string * string) :=
  [("pending", "status-pending");
   ("confirmed", "status-confirmed");
   ("completed", "status-completed");
   ("cancelled", "status-cancelled")].

(** The property names a plain object inherits from [Object.prototype]
    (ECMAScript 20.1.3 and B.2.2); each holds a function, [__proto__] the
    prototype object: truthy values that are not strings. *)
Definition Object_prototype_keys : list string :=
  ["constructor"; "hasOwnProperty"; "isPrototypeOf";
   "propertyIsEnumerable"; "toLocaleString"; "toString"; "valueOf";
   "__proto__"; "__defineGetter__"; "__defineSetter__";
   "__lookupGetter__"; "__lookupSetter__"].

(** What [getStatusClass] returns: a class name, or the member of
    [Object.prototype] the status happens to name. *)
Inductive class_value : Type :=
| class_name (name : string)
| inherited_member (key : string).

Fixpoint own_property (k : string) (fields : list (string * string))
  : option string :=
  match fields with
  | [] => None
  | (k', v) :: rest => if k' =? k then Some v else own_property k rest
  end.

(** [classes[status] || 'status-pending']: the own property when there
    is one (all four are non-empty strings, so truthy), else the
    inherited member when the prototype has one, else the default. *)
Definition getStatusClass (status : string) : class_value :=
  match own_property status classes with
  | Some name => class_name name
  | None =>
      if existsb (String.eqb status) Object_prototype_keys
      then inherited_member status
      else class_name "status-pending"
  end.

End App.
Import App.

(* ================================================================== *)
(** ** Vocabulary of the specification *)
(* ================================================================== *)

(** The specification calls the result object of the channel adapter a
    notification result [{ delivered, detail }]; in the code it is
    [{ success, error }] on failure and [{ success, data }] on success. *)
Definition delivered (r : value) : option value := get "success" r.

Definition detail (r : value) : option value :=
  match get "error" r with
  | Some e => Some e
  | None => get "data" r
  end.

(** Both channel credentials are configured. *)
Definition configured (h : host) : bool :=
  truthy (WHATSAPP_TOKEN h) && truthy (PHONE_NUMBER_ID h).

(** The normalisation of a destination: what [sendWhatsAppMessage] puts
    in the [to] field of the request for the string [to]. *)
Definition normalize (to : string) : string :=
  formattedPhone (replace_non_digits to).

(** The machine after further events. *)
Definition extend (m : machine) (evs : list event) : machine :=
  {| appointments := appointments m; loading := loading m;
     error := error m; filter := Host.filter m;
     refreshing := refreshing m; trace := trace m ++ evs |}.

(** The machine with another snapshot. *)
Definition with_appointments (m : machine) (l : list appointment) : machine :=
  {| appointments := l; loading := loading m; error := error m;
     filter := Host.filter m; refreshing := refreshing m; trace := trace m |}.

(** The store committed the write: the query resolved without an error. *)
Definition committed (h : host) (id newStatus : string) : bool :=
  match update_appointment h id newStatus with
  | store_resolves _ err => negb (truthy err)
  | store_rejects _ => false
  end.

(** The events the channel adapter can add to the trace. *)
Definition channel_event (e : event) : Prop :=
  match e with
  | console_warn _ _ | console_error _ _ | fetch_sent _ => True
  | _ => False
  end.

(** Projections of a trace. *)
Definition fetches (t : list event) : list request :=
  flat_map (fun e => match e with fetch_sent r => [r] | _ => [] end) t.

Definition store_writes (t : list event) : list (string * string) :=
  flat_map (fun e => match e with store_update i s => [(i, s)] | _ => [] end) t.

Definition alerts (t : list event) : list string :=
  flat_map (fun e => match e with alert s => [s] | _ => [] end) t.

Definition notifier_calls (t : list event) : list (appointment * string) :=
  flat_map (fun e => match e with notifier_called a s => [(a, s)] | _ => [] end) t.

Definition console_lines (t : list event) : list event :=
  List.filter
    (fun e => match e with
              | console_warn _ _ | console_error _ _ => true
              | _ => false
              end) t.

Definition store_reads (t : list event) : nat :=
  List.length
    (List.filter (fun e => match e with store_select => true | _ => false end)
       t).

(** The result object says the message went out. *)
Definition succeeded (r : value) : bool :=
  match delivered r with
  | Some (VBool true) => true
  | _ => false
  end.

(** The four members of the status enumeration. *)
Definition statuses : list string :=
  ["pending"; "confirmed"; "completed"; "cancelled"].

(** The statuses the upcoming view keeps. *)
Definition active (s : string) : bool :=
  (s =? "pending") || (s =? "confirmed").

(** The records of a snapshot with a given id. *)
Definition with_id (id : string) (l : list appointment) : list appointment :=
  List.filter (fun a => Host.id a =? id) l.

(** The records of a snapshot with another id. *)
Definition without_id (id : string) (l : list appointment)
  : list appointment :=
  List.filter (fun a => negb (Host.id a =? id)) l.

(** The record has a preferred date, it parses, and it falls in the
    seven days from now, both ends included. *)
Definition in_window (c : clock) (a : appointment) : bool :=
  truthy (preferred_date a)
  && match time_value c (preferred_date a), nextWeek c with
     | Some t, Some w => (today c <=? t)%Z && (t <=? w)%Z
     | _, _ => false
     end.

(** The error the [catch] block of [fetchAppointments] receives, if any. *)
Definition fetch_failure (h : host) : option value :=
  match select_appointments h with
  | store_resolves _ err => if truthy err then Some err else None
  | store_rejects reason => Some reason
  end.

(** The React state, without the trace. *)
Definition react_state (m : machine)
  : list appointment * bool * value * string * bool :=
  (appointments m, loading m, error m, Host.filter m, refreshing m).

(** [s.includes(sub)] *)
Definition includes (s sub : string) : bool :=
  match index 0 sub s with
  | Some _ => true
  | None => false
  end.

Definition all_digits (s : string) : Prop :=
  Forall (fun c => is_digit c = true) (list_ascii_of_string s).

(** *** Concrete inputs: the end-to-end scenario of the specification *)

Definition asha : appointment :=
  {| id := "a1"; full_name := "Asha"; phone := VStr "9876543210";
     email := VNull; preferred_date := VStr "2025-01-05";
     location := VStr "Pune"; notes := VNull;
     status := "pending"; created_at := "2025-01-01T10:00:00Z" |}.

(** A record whose phone number was never filled in. *)
Definition no_phone : appointment :=
  {| id := "a2"; full_name := "Ravi"; phone := VNull;
     email := VNull; preferred_date := VNull;
     location := VNull; notes := VNull;
     status := "pending"; created_at := "2025-01-02T10:00:00Z" |}.

(** A host with both credentials, an en-US browser, a store that accepts
    every write and a provider that answers as [answer] says. *)
Definition host_with (answer : request -> fetch_outcome) : host :=
  {| WHATSAPP_TOKEN := VStr "token";
     PHONE_NUMBER_ID := VStr "1234567890";
     toLocaleDateString := fun _ => "1/5/2025";
     type_error_message := fun _ => "to.replace is not a function";
     fetch := answer;
     select_appointments := store_resolves (Some [asha; no_phone]) VNull;
     update_appointment := fun _ _ => store_resolves None VNull |}.

Definition provider_accepts : request -> fetch_outcome :=
  fun _ => fetch_resolves
             {| ok := true;
                json := json_resolves (VObj [("messages", VArr [VObj [("id", VStr "wamid.1")]])]) |}.

Definition provider_rejects : request -> fetch_outcome :=
  fun _ => fetch_resolves
             {| ok := false;
                json := json_resolves (VObj [("error", VObj [("code", VNum 190)])]) |}.

Definition network_down : request -> fetch_outcome :=
  fun _ => fetch_rejects (VError "TypeError" "Failed to fetch").

(** The same host without the access token. *)
Definition host_unconfigured : host :=
  {| WHATSAPP_TOKEN := VUndefined;
     PHONE_NUMBER_ID := VStr "1234567890";
     toLocaleDateString := fun _ => "1/5/2025";
     type_error_message := fun _ => "to.replace is not a function";
     fetch := provider_accepts;
     select_appointments := store_resolves (Some [asha; no_phone]) VNull;
     update_appointment := fun _ _ => store_resolves None VNull |}.

(** A host whose store refuses every query. *)
Definition host_store_down : host :=
  {| WHATSAPP_TOKEN := VStr "token";
     PHONE_NUMBER_ID := VStr "1234567890";
     toLocaleDateString := fun _ => "1/5/2025";
     type_error_message := fun _ => "to.replace is not a function";
     fetch := provider_accepts;
     select_appointments :=
       store_resolves None (VObj [("message", VStr "JWT expired")]);
     update_appointment :=
       fun _ _ => store_resolves None (VObj [("message", VStr "JWT expired")]) |}.

(** The morning of 1 January 2025 (UTC), in a browser that parses the
    ISO date of [asha] and nothing else. *)
Definition new_year_2025 : clock :=
  {| today := 1735725600000;
     time_value := fun d => match d with
                            | VStr "2025-01-05" => Some 1736035200000%Z
                            | _ => None
                            end |}.

(* ================================================================== *)
(** ** Phone normalisation *)
(* ================================================================== *)

Lemma replace_non_digits_filter (s : string) :
  list_ascii_of_string (replace_non_digits s)
  = List.filter is_digit (list_ascii_of_string s).
Proof.
  induction s as [|c rest IH]; simpl.
  - reflexivity.
  - destruct (is_digit c); simpl; now rewrite IH.
Qed.

Lemma replace_non_digits_all_digits (s : string) :
  all_digits (replace_non_digits s).
Proof.
  unfold all_digits. rewrite replace_non_digits_filter.
  apply Forall_forall. intros c Hc. now apply filter_In in Hc.
Qed.

Lemma replace_non_digits_fixed (s : string) :
  all_digits s -> replace_non_digits s = s.
Proof.
  unfold all_digits.
  induction s as [|c rest IH]; simpl; intros H.
  - reflexivity.
  - inversion H as [|? ? Hc Hrest]; subst.
    rewrite Hc. now rewrite IH.
Qed.

Lemma all_digits_app (s t : string) :
  all_digits s -> all_digits t -> all_digits (s ++ t).
Proof.
  unfold all_digits.
  induction s as [|c rest IH]; simpl; intros Hs Ht.
  - exact Ht.
  - inversion Hs; subst. constructor; auto.
Qed.

Lemma formattedPhone_all_digits (s : string) :
  all_digits s -> all_digits (formattedPhone s).
Proof.
  intros H. unfold formattedPhone.
  destruct (String.length s =? 10)%nat; [|exact H].
  apply all_digits_app; [|exact H].
  unfold all_digits; simpl. repeat constructor.
Qed.

Lemma formattedPhone_length (s : string) :
  String.length (formattedPhone s) <> 10%nat.
Proof.
  unfold formattedPhone.
  destruct (String.length s =? 10)%nat eqn:E.
  - apply Nat.eqb_eq in E. simpl. lia.
  - now apply Nat.eqb_neq in E.
Qed.

Lemma formattedPhone_fixed (s : string) :
  String.length s <> 10%nat -> formattedPhone s = s.
Proof.
  intros H. unfold formattedPhone.
  apply Nat.eqb_neq in H. now rewrite H.
Qed.


(* ================================================================== *)
(** ** Running the monad *)
(* ================================================================== *)

Lemma emit_run (e : event) (m : machine) :
  emit e m = (Returned tt, extend m [e]).
Proof. reflexivity. Qed.

Lemma extend_extend (m : machine) (a b : list event) :
  extend (extend m a) b = extend m (a ++ b).
Proof. unfold extend; simpl. now rewrite app_assoc. Qed.

Lemma fetches_app (a b : list event) :
  fetches (a ++ b) = (fetches a ++ fetches b)%list.
Proof. apply flat_map_app. Qed.

Lemma store_writes_app (a b : list event) :
  store_writes (a ++ b) = (store_writes a ++ store_writes b)%list.
Proof. apply flat_map_app. Qed.

Lemma alerts_app (a b : list event) :
  alerts (a ++ b) = (alerts a ++ alerts b)%list.
Proof. apply flat_map_app. Qed.

Lemma notifier_calls_app (a b : list event) :
  notifier_calls (a ++ b) = (notifier_calls a ++ notifier_calls b)%list.
Proof. apply flat_map_app. Qed.

Create Rewrite HintDb trace_proj.
#[local] Hint Rewrite fetches_app store_writes_app alerts_app
  notifier_calls_app app_nil_r : trace_proj.

(** Unfold one layer of the monad and compute. *)
Ltac run_monad :=
  repeat
    (progress
       (unfold try_catch, try_finally, bind, ret, throw, emit, await_fetch,
          await_json, await_store, call_replace_non_digits,
          setAppointments, setLoading, setError, setRefreshing;
        cbn [fst snd appointments loading error Host.filter refreshing
             trace])).

(** The channel adapter always returns a result object with a boolean
    [success], it adds only console lines and at most one request to the
    trace, and it leaves the React state alone. *)
Lemma sendWhatsAppMessage_run (h : host) (to : value) (message : string)
  (m : machine) :
  exists r evs,
    sendWhatsAppMessage h to message m = (Returned r, extend m evs)
    /\ (exists b, delivered r = Some (VBool b))
    /\ Forall channel_event evs
    /\ (length (fetches evs) <= 1)%nat.
Proof.
  unfold sendWhatsAppMessage.
  destruct (negb (truthy (WHATSAPP_TOKEN h)) || negb (truthy (PHONE_NUMBER_ID h))).
  - run_monad. do 2 eexists. split; [reflexivity|].
    split; [now exists false|]. split; [repeat constructor | simpl; lia].
  - run_monad.
    destruct to; run_monad;
      try (do 2 eexists; split; [reflexivity|];
           split; [now exists false|];
           split; [repeat constructor | simpl; lia]).
    match goal with |- context [fetch h ?q] => destruct (fetch h q) as [resp|reason] end;
      run_monad.
    + destruct (json resp) as [data|reason]; run_monad.
      * destruct (ok resp); cbn [negb]; run_monad;
          unfold extend; rewrite <- ?app_assoc;
          do 2 eexists; (split; [reflexivity|]);
          (split; [eexists; reflexivity|]);
          (split; [repeat constructor | simpl; lia]).
      * unfold extend; rewrite <- ?app_assoc;
          do 2 eexists; (split; [reflexivity|]);
          (split; [eexists; reflexivity|]);
          (split; [repeat constructor | simpl; lia]).
    + unfold extend; rewrite <- ?app_assoc;
        do 2 eexists; (split; [reflexivity|]);
        (split; [eexists; reflexivity|]);
        (split; [repeat constructor | simpl; lia]).
Qed.

(* ================================================================== *)
(** ** The channel adapter *)
(* ================================================================== *)

(** C5.  For every destination string the adapter strips every non-digit
    character and prepends ["91"] exactly when ten digits remain; the
    result is the [to] field of the one request it sends (when the
    credentials are configured).  The three examples of the
    specification normalise as it says. *)
Theorem phone_normalization (h : host) (to message : string) (m : machine) :
  let digits :=
    string_of_list_ascii (List.filter is_digit (list_ascii_of_string to)) in
  normalize to
  = (if (String.length digits =? 10)%nat then "91" ++ digits else digits)
  /\ fetches (trace (snd (sendWhatsAppMessage h (VStr to) message m)))
     = (fetches (trace m)
        ++ if configured h
           then [message_request h (normalize to) message] else [])%list
  /\ get "to" (body (message_request h (normalize to) message))
     = Some (VStr (normalize to))
  /\ normalize "9876543210" = "919876543210"
  /\ normalize "+91 98765 43210" = "919876543210"
  /\ normalize "00919876543210" = "00919876543210".
Proof.
  cbv zeta. repeat split.
  - unfold normalize, formattedPhone.
    rewrite <- replace_non_digits_filter, string_of_list_ascii_of_string.
    reflexivity.
  - unfold sendWhatsAppMessage, configured.
    destruct (truthy (WHATSAPP_TOKEN h)), (truthy (PHONE_NUMBER_ID h));
      cbn [negb orb andb]; run_monad;
      try (autorewrite with trace_proj; reflexivity).
    fold (normalize to).
    destruct (fetch h _) as [resp|reason]; run_monad;
      [destruct (json resp); run_monad; [destruct (ok resp); cbn [negb]; run_monad|]|];
      autorewrite with trace_proj; reflexivity.
Qed.

(** C10.  Normalisation is idempotent: its output consists of digits only
    and never has length 10 (it has length 12 after the prefix was added,
    and is the stripped string, of another length than 10, otherwise), so
    normalising it again changes nothing. *)
Theorem normalize_idempotent (to : string) :
  normalize (normalize to) = normalize to
  /\ all_digits (normalize to)
  /\ String.length (normalize to) <> 10%nat
  /\ (String.length (normalize to) = 12%nat
      \/ (normalize to = replace_non_digits to
          /\ String.length (replace_non_digits to) <> 10%nat)).
Proof.
  assert (Hd : all_digits (normalize to))
    by (apply formattedPhone_all_digits, replace_non_digits_all_digits).
  assert (Hl : String.length (normalize to) <> 10%nat)
    by apply formattedPhone_length.
  repeat split; trivial.
  - unfold normalize at 1.
    rewrite (replace_non_digits_fixed _ Hd).
    now apply formattedPhone_fixed.
  - unfold normalize, formattedPhone.
    destruct (String.length (replace_non_digits to) =? 10)%nat eqn:E.
    + left. apply Nat.eqb_eq in E. simpl. now rewrite E.
    + right. split; [reflexivity | now apply Nat.eqb_neq].
Qed.

(** C6.  When either credential is not configured, the adapter returns
    at once a result with [success: false], without throwing and without
    a network request: the only effect is one console warning. *)
Theorem credentials_missing_short_circuit (h : host) (to : value)
  (message : string) (m : machine) :
  truthy (WHATSAPP_TOKEN h) = false \/ truthy (PHONE_NUMBER_ID h) = false ->
  exists r,
    sendWhatsAppMessage h to message m
    = (Returned r,
       extend m [console_warn "WhatsApp credentials missing. Message not sent:"
                   (VObj [("to", to); ("message", VStr message)])])
    /\ delivered r = Some (VBool false)
    /\ fetches (trace (snd (sendWhatsAppMessage h to message m)))
       = fetches (trace m).
Proof.
  intros H. unfold sendWhatsAppMessage.
  assert (E : negb (truthy (WHATSAPP_TOKEN h))
              || negb (truthy (PHONE_NUMBER_ID h)) = true).
  { destruct H as [H|H]; rewrite H; cbn; [reflexivity | apply orb_true_r]. }
  rewrite E. run_monad. eexists. split; [reflexivity|]. split; [reflexivity|].
  autorewrite with trace_proj. reflexivity.
Qed.

Lemma credentials_missing_short_circuit_witness :
  exists r,
    sendWhatsAppMessage host_unconfigured (VStr "9876543210") "hello" initial
    = (Returned r,
       extend initial
         [console_warn "WhatsApp credentials missing. Message not sent:"
            (VObj [("to", VStr "9876543210"); ("message", VStr "hello")])])
    /\ delivered r = Some (VBool false)
    /\ fetches (trace (snd (sendWhatsAppMessage host_unconfigured
                              (VStr "9876543210") "hello" initial)))
       = fetches (trace initial).
Proof.
  apply (credentials_missing_short_circuit host_unconfigured
           (VStr "9876543210") "hello" initial).
  left. reflexivity.
Defined.

(** C7.  The adapter never lets an exception escape: it always returns a
    result.  When the provider answers with a non-success status the
    result is [success: false] with the provider's payload; when it
    answers with success the result is [success: true] with the payload;
    when the request or the decoding of the answer throws, the result is
    [success: false] with the exception. *)
Theorem send_never_throws (h : host) (to : value) (message : string)
  (m : machine) :
  exists r m',
    sendWhatsAppMessage h to message m = (Returned r, m')
    /\ (forall s resp data,
          configured h = true -> to = VStr s ->
          fetch h (message_request h (normalize s) message)
          = fetch_resolves resp ->
          json resp = json_resolves data ->
          delivered r = Some (VBool (ok resp)) /\ detail r = Some data)
    /\ (forall s reason,
          configured h = true -> to = VStr s ->
          fetch h (message_request h (normalize s) message)
          = fetch_rejects reason ->
          delivered r = Some (VBool false) /\ detail r = Some reason)
    /\ (forall s resp reason,
          configured h = true -> to = VStr s ->
          fetch h (message_request h (normalize s) message)
          = fetch_resolves resp ->
          json resp = json_rejects reason ->
          delivered r = Some (VBool false) /\ detail r = Some reason).
Proof.
  unfold sendWhatsAppMessage, configured.
  destruct (truthy (WHATSAPP_TOKEN h)), (truthy (PHONE_NUMBER_ID h));
    cbn [negb orb andb]; run_monad;
    try (do 2 eexists; split; [reflexivity|]; repeat split; discriminate).
  destruct to; run_monad;
    try (do 2 eexists; split; [reflexivity|]; repeat split; discriminate).
  fold (normalize s).
  destruct (fetch h (message_request h (normalize s) message))
    as [resp|reason] eqn:Ef; run_monad.
  - destruct (json resp) as [data|reason] eqn:Ej; run_monad.
    + destruct (ok resp) eqn:Eo; cbn [negb]; run_monad;
        (do 2 eexists; split; [reflexivity|]);
        (split; [|split]); intros; 
        match goal with H : VStr _ = VStr _ |- _ => inversion H; subst end;
        try congruence;
        (assert (resp0 = resp) by congruence; subst;
         assert (data0 = data) by congruence; subst;
         rewrite Eo; split; reflexivity).
    + (do 2 eexists; split; [reflexivity|]);
        (split; [|split]); intros;
        match goal with H : VStr _ = VStr _ |- _ => inversion H; subst end;
        try congruence.
      assert (resp0 = resp) by congruence; subst.
      assert (reason0 = reason) by congruence; subst.
      split; reflexivity.
  - (do 2 eexists; split; [reflexivity|]);
      (split; [|split]); intros;
      match goal with H : VStr _ = VStr _ |- _ => inversion H; subst end;
      try congruence.
    assert (reason0 = reason) by congruence; subst.
    split; reflexivity.
Qed.

Lemma send_never_throws_witness :
  (exists r m',
      sendWhatsAppMessage (host_with provider_rejects) (VStr "9876543210")
        "hello" initial = (Returned r, m')
      /\ delivered r = Some (VBool false)
      /\ detail r = Some (VObj [("error", VObj [("code", VNum 190)])]))
  /\ (exists r m',
         sendWhatsAppMessage (host_with provider_accepts) (VStr "9876543210")
           "hello" initial = (Returned r, m')
         /\ delivered r = Some (VBool true)
         /\ detail r
            = Some (VObj [("messages", VArr [VObj [("id", VStr "wamid.1")]])]))
  /\ (exists r m',
         sendWhatsAppMessage (host_with network_down) (VStr "9876543210")
           "hello" initial = (Returned r, m')
         /\ delivered r = Some (VBool false)
         /\ detail r = Some (VError "TypeError" "Failed to fetch")).
Proof.
  split; [|split].
  - destruct (send_never_throws (host_with provider_rejects)
                (VStr "9876543210") "hello" initial)
      as (r & m' & Hrun & Hanswer & _ & _).
    exists r, m'. split; [exact Hrun|].
    exact (Hanswer "9876543210" _ _ eq_refl eq_refl eq_refl eq_refl).
  - destruct (send_never_throws (host_with provider_accepts)
                (VStr "9876543210") "hello" initial)
      as (r & m' & Hrun & Hanswer & _ & _).
    exists r, m'. split; [exact Hrun|].
    exact (Hanswer "9876543210" _ _ eq_refl eq_refl eq_refl eq_refl).
  - destruct (send_never_throws (host_with network_down)
                (VStr "9876543210") "hello" initial)
      as (r & m' & Hrun & _ & Hdown & _).
    exists r, m'. split; [exact Hrun|].
    exact (Hdown "9876543210" _ eq_refl eq_refl eq_refl).
Defined.

(* ================================================================== *)
(** ** The notifier *)
(* ================================================================== *)

Lemma notification_worthy_spec (s : string) :
  notification_worthy s = true
  <-> In s ["confirmed"; "completed"; "cancelled"].
Proof.
  unfold notification_worthy. rewrite existsb_exists. split.
  - intros (x & Hx & E). apply String.eqb_eq in E. subst x.
    simpl in Hx. simpl. intuition.
  - intros H. exists s. split; [simpl in *; intuition | apply String.eqb_refl].
Qed.

Lemma not_worthy_branches (s : string) :
  ~ In s ["confirmed"; "completed"; "cancelled"] ->
  (s =? "confirmed") = false /\ (s =? "cancelled") = false
  /\ (s =? "completed") = false.
Proof.
  intros H. repeat split; apply String.eqb_neq; intros E; apply H;
    subst; simpl; intuition.
Qed.

(** Counterexample to C3 as stated, at [pending]: the notifier does not return a result
    object with [delivered = false] and the detail the specification
    names; it returns [undefined]. *)
Lemma pending_returns_no_result :
  ~ (exists r m',
        sendStatusUpdateMessage (host_with provider_accepts) asha "pending"
          initial = (Returned r, m')
        /\ delivered r = Some (VBool false)
        /\ detail r = Some (VStr "not notification-worthy")).
Proof.
  intros (r & m' & Hrun & Hd & _).
  vm_compute in Hrun. inversion Hrun; subst r. discriminate Hd.
Qed.

(** C3, amended.  For every appointment and every status outside
    confirmed, completed and cancelled (pending among them), the notifier
    returns at once, with [undefined] and not with a result object, and
    nothing is sent: no request, no console line, no credential check. *)
Theorem not_worthy_is_noop (h : host) (a : appointment) (s : string)
  (m : machine) :
  ~ In s ["confirmed"; "completed"; "cancelled"] ->
  sendStatusUpdateMessage h a s m
  = (Returned VUndefined, extend m [notifier_called a s])
  /\ delivered VUndefined = None
  /\ detail VUndefined = None
  /\ fetches (trace (snd (sendStatusUpdateMessage h a s m)))
     = fetches (trace m).
Proof.
  intros H. destruct (not_worthy_branches s H) as (E1 & E2 & E3).
  assert (R : sendStatusUpdateMessage h a s m
              = (Returned VUndefined, extend m [notifier_called a s])).
  { unfold sendStatusUpdateMessage. run_monad. rewrite E1, E2, E3.
    reflexivity. }
  rewrite R. repeat split.
  cbn [snd extend trace]. autorewrite with trace_proj. reflexivity.
Qed.

Lemma not_worthy_is_noop_witness :
  sendStatusUpdateMessage (host_with provider_accepts) asha "pending" initial
  = (Returned VUndefined, extend initial [notifier_called asha "pending"])
  /\ delivered VUndefined = None
  /\ detail VUndefined = None
  /\ fetches (trace (snd (sendStatusUpdateMessage
                            (host_with provider_accepts) asha "pending"
                            initial)))
     = fetches (trace initial).
Proof.
  apply (not_worthy_is_noop (host_with provider_accepts) asha "pending"
           initial).
  simpl. intros [E|[E|[E|[]]]]; discriminate E.
Defined.

(** Counterexample to C4 as stated, at [completed]: the message that goes
    out carries the patient's name but not the formatted preferred date. *)
Lemma completed_message_omits_date :
  exists message,
    fetches (trace (snd (sendStatusUpdateMessage (host_with provider_accepts)
                           asha "completed" initial)))
    = [message_request (host_with provider_accepts) "919876543210" message]
    /\ includes message (full_name asha) = true
    /\ dateStr (host_with provider_accepts) (preferred_date asha) = "1/5/2025"
    /\ includes message
         (dateStr (host_with provider_accepts) (preferred_date asha)) = false.
Proof.
  eexists. split; [vm_compute; reflexivity|].
  split; [|split]; vm_compute; reflexivity.
Qed.

(** C4, amended.  For every appointment the notifier hands the channel
    adapter the record's phone number and the fixed template of the new
    status: the confirmed template interpolates the full name, the
    formatted preferred date (or the placeholder ["the requested date"]
    when the date is absent) and the location; the cancelled template the
    full name and the date, not the location; the completed template the
    full name only, neither date nor location.  For any other status no
    message is rendered. *)
Theorem message_templates (h : host) (a : appointment) (m : machine) :
  let called s := extend m [notifier_called a s] in
  let date :=
    if truthy (preferred_date a) then toLocaleDateString h (preferred_date a)
    else "the requested date" in
  sendStatusUpdateMessage h a "confirmed" m
  = sendWhatsAppMessage h (phone a)
      ("Hello " ++ full_name a
       ++ ", your appointment with Dr. Vaibbhav Guray on " ++ date
       ++ " at our " ++ to_string (location a)
       ++ " center has been CONFIRMED. We look forward to seeing you!")
      (called "confirmed")
  /\ sendStatusUpdateMessage h a "cancelled" m
     = sendWhatsAppMessage h (phone a)
         ("Hello " ++ full_name a
          ++ ", we are sorry to inform you that your appointment with Dr. Vaibbhav Guray on "
          ++ date ++ " has been CANCELLED. Please contact us to reschedule.")
         (called "cancelled")
  /\ sendStatusUpdateMessage h a "completed" m
     = sendWhatsAppMessage h (phone a)
         ("Hello " ++ full_name a
          ++ ", thank you for visiting Dr. Vaibbhav Guray today! We hope you have a great day. Feel free to contact us for any follow-up concerns.")
         (called "completed")
  /\ (forall s, ~ In s ["confirmed"; "completed"; "cancelled"] ->
        sendStatusUpdateMessage h a s m = (Returned VUndefined, called s)).
Proof.
  cbv zeta. repeat split.
  intros s H. destruct (not_worthy_branches s H) as (E1 & E2 & E3).
  unfold sendStatusUpdateMessage. run_monad. rewrite E1, E2, E3.
  reflexivity.
Qed.

Lemma message_templates_witness :
  sendStatusUpdateMessage (host_with provider_accepts) asha "pending" initial
  = (Returned VUndefined, extend initial [notifier_called asha "pending"]).
Proof.
  apply (message_templates (host_with provider_accepts) asha initial).
  simpl. intros [E|[E|[E|[]]]]; discriminate E.
Defined.

(* ================================================================== *)
(** ** The registry *)
(* ================================================================== *)

Lemma channel_events_projections (evs : list event) :
  Forall channel_event evs ->
  store_writes evs = [] /\ alerts evs = [] /\ notifier_calls evs = [].
Proof.
  induction 1 as [|e evs He _ (IH1 & IH2 & IH3)]; [now repeat split|].
  destruct e; try contradiction; simpl; auto.
Qed.

(** The notifier always returns; it adds its own ghost event and then
    only what the channel adapter adds. *)
Lemma sendStatusUpdateMessage_run (h : host) (a : appointment) (s : string)
  (m : machine) :
  exists r evs,
    sendStatusUpdateMessage h a s m
    = (Returned r, extend m (notifier_called a s :: evs))
    /\ Forall channel_event evs
    /\ (length (fetches evs) <= 1)%nat.
Proof.
  unfold sendStatusUpdateMessage. unfold bind at 1. rewrite emit_run.
  assert (S : forall message,
             exists r evs,
               sendWhatsAppMessage h (phone a) message
                 (extend m [notifier_called a s])
               = (Returned r, extend m (notifier_called a s :: evs))
               /\ Forall channel_event evs
               /\ (length (fetches evs) <= 1)%nat).
  { intros message.
    destruct (sendWhatsAppMessage_run h (phone a) message
                (extend m [notifier_called a s]))
      as (r & evs & Hrun & _ & Hev & Hlen).
    exists r, evs. rewrite Hrun, extend_extend. auto. }
  destruct (s =? "confirmed"); [apply S|].
  destruct (s =? "cancelled"); [apply S|].
  destruct (s =? "completed"); [apply S|].
  exists VUndefined, []. repeat split; simpl; auto.
Qed.

(** What [updateStatus] does, whatever the store and the provider answer:
    it never throws, it attempts the write first, patches the snapshot
    exactly when the write was committed, alerts exactly when it was not,
    and calls the notifier exactly when the write was committed, the
    record was found in the rendered snapshot and the status is one of the
    three. *)
Lemma updateStatus_run (h : host) (rendered : list appointment)
  (id newStatus : string) (m : machine) :
  exists evs,
    updateStatus h rendered id newStatus m
    = (Returned tt,
       extend
         (with_appointments m
            (if committed h id newStatus
             then map (patch id newStatus) (appointments m)
             else appointments m))
         (store_update id newStatus :: evs))
    /\ store_writes evs = []
    /\ alerts evs
       = (if committed h id newStatus then []
          else ["Failed to update status. Please try again."])
    /\ notifier_calls evs
       = (if committed h id newStatus then
            match find (fun a => Host.id a =? id) rendered with
            | Some apt =>
                if notification_worthy newStatus then [(apt, newStatus)]
                else []
            | None => []
            end
          else []).
Proof.
  unfold updateStatus, committed.
  unfold try_catch, bind at 1. unfold await_store, bind at 1.
  rewrite emit_run.
  destruct (update_appointment h id newStatus) as [data err|reason].
  - unfold ret at 1. destruct (truthy err); cbn [negb].
    + run_monad. eexists. unfold extend, with_appointments;
        cbn [appointments loading error Host.filter refreshing trace].
      rewrite <- !app_assoc. split; [reflexivity|]. now repeat split.
    + unfold bind at 1. unfold setAppointments at 1.
      destruct (find (fun a => Host.id a =? id) rendered) as [apt|];
        [destruct (notification_worthy newStatus)|].
      * unfold bind at 1.
        match goal with
        | |- context [sendStatusUpdateMessage h apt newStatus ?m1] =>
            destruct (sendStatusUpdateMessage_run h apt newStatus m1)
              as (r & evs & Hrun & Hev & _)
        end.
        rewrite Hrun. unfold ret.
        destruct (channel_events_projections evs Hev) as (P1 & P2 & P3).
        exists (notifier_called apt newStatus :: evs).
        unfold extend, with_appointments;
        cbn [appointments loading error Host.filter refreshing trace].
        rewrite <- !app_assoc. split; [reflexivity|].
        change (notifier_called apt newStatus :: evs)
          with ([notifier_called apt newStatus] ++ evs)%list.
        autorewrite with trace_proj. rewrite P1, P2, P3.
        now repeat split.
      * unfold ret. exists []. now repeat split.
      * unfold ret. exists []. now repeat split.
  - run_monad. eexists. unfold extend, with_appointments;
        cbn [appointments loading error Host.filter refreshing trace].
    rewrite <- !app_assoc. split; [reflexivity|]. now repeat split.
Qed.

Lemma find_present (id : string) (rendered : list appointment) :
  (exists a, In a rendered /\ Host.id a = id) ->
  exists apt,
    find (fun a => Host.id a =? id) rendered = Some apt
    /\ In apt rendered /\ Host.id apt = id.
Proof.
  intros (a & Ha & E).
  destruct (find (fun a => Host.id a =? id) rendered) as [apt|] eqn:F.
  - exists apt. apply find_some in F. destruct F as [Hin Heq].
    apply String.eqb_eq in Heq. auto.
  - exfalso. apply (find_none _ _ F) in Ha.
    apply String.eqb_neq in Ha. contradiction.
Qed.

Lemma find_absent (id : string) (rendered : list appointment) :
  (forall a, In a rendered -> Host.id a <> id) ->
  find (fun a => Host.id a =? id) rendered = None.
Proof.
  intros H.
  destruct (find (fun a => Host.id a =? id) rendered) as [apt|] eqn:F;
    [|reflexivity].
  apply find_some in F. destruct F as [Hin Heq].
  apply String.eqb_eq in Heq. now apply H in Hin.
Qed.

(** C8.  Whatever the store answers, [fetchAppointments] completes
    normally with [loading] and [refreshing] both false.  When the fetch
    fails (the query rejects, or resolves with an error) the snapshot and
    the derived counts are what they were and [error] is the user-facing
    message; when it succeeds the snapshot is the fetched rows (none for
    [null]) and [error] is cleared. *)
Theorem fetchAppointments_exits (h : host) (m : machine) :
  let m' := snd (fetchAppointments h m) in
  let failed :=
    appointments m' = appointments m
    /\ stats (appointments m') = stats (appointments m)
    /\ error m' = VStr "Failed to load appointments. Please try again." in
  fst (fetchAppointments h m) = Returned tt
  /\ loading m' = false
  /\ refreshing m' = false
  /\ match select_appointments h with
     | store_resolves data err =>
         if truthy err then failed
         else appointments m'
              = match data with Some rows => rows | None => [] end
              /\ error m' = VNull
     | store_rejects _ => failed
     end.
Proof.
  cbv zeta. unfold fetchAppointments.
  destruct (select_appointments h) as [data err|reason].
  - destruct (truthy err) eqn:E; run_monad; rewrite E; run_monad;
      repeat split; reflexivity.
  - run_monad. repeat split; reflexivity.
Qed.

(** C1.  When the store commits the write, [updateStatus] completes
    normally; the write is the first thing it does; every record of the
    snapshot keeps all its fields except that the records with the given
    id get the new status; and the notifier is called exactly once, with
    the record found in the rendered snapshot (the record as it was before
    the update) and the new status, when the new status is confirmed,
    completed or cancelled and the id is present, and not at all
    otherwise: neither for another status nor for an id that is not
    present (for which the write is attempted all the same). *)
Theorem updateStatus_success (h : host) (rendered : list appointment)
  (id newStatus : string) (m : machine) :
  committed h id newStatus = true ->
  let m' := snd (updateStatus h rendered id newStatus m) in
  let worthy := In newStatus ["confirmed"; "completed"; "cancelled"] in
  let present := exists a, In a rendered /\ Host.id a = id in
  fst (updateStatus h rendered id newStatus m) = Returned tt
  /\ (exists evs,
         trace m' = (trace m ++ store_update id newStatus :: evs)%list
         /\ store_writes evs = [])
  /\ appointments m' = map (patch id newStatus) (appointments m)
  /\ (forall n old,
         nth_error (appointments m) n = Some old ->
         exists new,
           nth_error (appointments m') n = Some new
           /\ Host.id new = Host.id old
           /\ full_name new = full_name old
           /\ phone new = phone old
           /\ email new = email old
           /\ preferred_date new = preferred_date old
           /\ location new = location old
           /\ notes new = notes old
           /\ created_at new = created_at old
           /\ status new
              = if Host.id old =? id then newStatus else status old)
  /\ (worthy -> present ->
      exists apt,
        find (fun a => Host.id a =? id) rendered = Some apt
        /\ In apt rendered /\ Host.id apt = id
        /\ notifier_calls (trace m')
           = (notifier_calls (trace m) ++ [(apt, newStatus)])%list)
  /\ (~ worthy -> notifier_calls (trace m') = notifier_calls (trace m))
  /\ (~ present ->
      store_writes (trace m')
      = (store_writes (trace m) ++ [(id, newStatus)])%list
      /\ notifier_calls (trace m') = notifier_calls (trace m)).
Proof.
  intros C. cbv zeta.
  destruct (updateStatus_run h rendered id newStatus m)
    as (evs & Hrun & Hw & _ & Hn).
  rewrite C in Hrun, Hn. rewrite Hrun. cbn [fst snd].
  assert (T : forall l,
             trace (extend (with_appointments m l)
                      (store_update id newStatus :: evs))
             = (trace m ++ [store_update id newStatus] ++ evs)%list)
    by reflexivity.
  split; [reflexivity|]. split; [exists evs; auto|].
  split; [reflexivity|]. split; [|split; [|split]].
  - intros n old Hold. cbn [extend with_appointments appointments].
    exists (patch id newStatus old).
    split; [now apply map_nth_error|].
    unfold patch. destruct (Host.id old =? id); now repeat split.
  - intros Hworthy Hpresent.
    destruct (find_present id rendered Hpresent) as (apt & F & Hin & Hid).
    exists apt. repeat split; trivial.
    apply notification_worthy_spec in Hworthy.
    rewrite F, Hworthy in Hn. rewrite T.
    autorewrite with trace_proj. now rewrite Hn.
  - intros Hworthy.
    assert (E : notification_worthy newStatus = false).
    { destruct (notification_worthy newStatus) eqn:E; [|reflexivity].
      now apply notification_worthy_spec in E. }
    rewrite E in Hn. rewrite T. autorewrite with trace_proj.
    replace (notifier_calls evs) with (@nil (appointment * string))
      by (destruct (find _ rendered); auto).
    simpl. now rewrite app_nil_r.
  - intros Habsent.
    assert (F : find (fun a => Host.id a =? id) rendered = None).
    { apply find_absent. intros a Ha E. apply Habsent. now exists a. }
    rewrite F in Hn. rewrite T. autorewrite with trace_proj.
    rewrite Hw, Hn. simpl. now rewrite !app_nil_r.
Qed.

Lemma updateStatus_success_witness :
  let h := host_with provider_accepts in
  let m := with_appointments initial [asha; no_phone] in
  fst (updateStatus h [asha; no_phone] "a1" "confirmed" m) = Returned tt
  /\ appointments (snd (updateStatus h [asha; no_phone] "a1" "confirmed" m))
     = [with_status asha "confirmed"; no_phone]
  /\ notifier_calls
       (trace (snd (updateStatus h [asha; no_phone] "a1" "confirmed" m)))
     = [(asha, "confirmed")].
Proof.
  cbv zeta.
  destruct (updateStatus_success (host_with provider_accepts)
              [asha; no_phone] "a1" "confirmed"
              (with_appointments initial [asha; no_phone]) eq_refl)
    as (Hret & _ & Hsnap & _ & Hcall & _ & _).
  split; [exact Hret|]. split; [exact Hsnap|].
  destruct Hcall as (apt & F & _ & _ & Hn).
  - simpl. auto.
  - exists asha. simpl. auto.
  - rewrite Hn. inversion F. reflexivity.
Defined.

(** C2.  Two runs of [updateStatus] that get the same answer from the
    store end in the same React state (snapshot, flags, error), with the
    same store writes and the same alerts, and both complete normally,
    whatever differs on the notification side: the credentials, the
    provider's answer (accepted, rejected, a transport exception), the
    date formatting.  No field of any record depends on the notification
    result. *)
Theorem notification_outcome_isolated (h1 h2 : host)
  (rendered : list appointment) (id newStatus : string) (m : machine) :
  update_appointment h1 id newStatus = update_appointment h2 id newStatus ->
  let run1 := updateStatus h1 rendered id newStatus m in
  let run2 := updateStatus h2 rendered id newStatus m in
  fst run1 = Returned tt
  /\ fst run2 = Returned tt
  /\ react_state (snd run1) = react_state (snd run2)
  /\ appointments (snd run1) = appointments (snd run2)
  /\ store_writes (trace (snd run1)) = store_writes (trace (snd run2))
  /\ alerts (trace (snd run1)) = alerts (trace (snd run2)).
Proof.
  intros E. cbv zeta.
  assert (C : committed h1 id newStatus = committed h2 id newStatus)
    by (unfold committed; now rewrite E).
  destruct (updateStatus_run h1 rendered id newStatus m)
    as (evs1 & Hrun1 & Hw1 & Ha1 & _).
  destruct (updateStatus_run h2 rendered id newStatus m)
    as (evs2 & Hrun2 & Hw2 & Ha2 & _).
  rewrite Hrun1, Hrun2, C. cbn [fst snd].
  repeat split.
  - cbn [extend trace with_appointments].
    change (store_update id newStatus :: evs1)
      with ([store_update id newStatus] ++ evs1)%list.
    change (store_update id newStatus :: evs2)
      with ([store_update id newStatus] ++ evs2)%list.
    autorewrite with trace_proj. now rewrite Hw1, Hw2.
  - cbn [extend trace with_appointments].
    change (store_update id newStatus :: evs1)
      with ([store_update id newStatus] ++ evs1)%list.
    change (store_update id newStatus :: evs2)
      with ([store_update id newStatus] ++ evs2)%list.
    autorewrite with trace_proj. now rewrite Ha1, Ha2, C.
Qed.

Lemma notification_outcome_isolated_witness :
  let m := with_appointments initial [asha; no_phone] in
  let run1 :=
    updateStatus (host_with provider_accepts) [asha; no_phone] "a1"
      "confirmed" m in
  let run2 :=
    updateStatus (host_with network_down) [asha; no_phone] "a1"
      "confirmed" m in
  fst run1 = Returned tt
  /\ fst run2 = Returned tt
  /\ react_state (snd run1) = react_state (snd run2)
  /\ appointments (snd run1) = appointments (snd run2)
  /\ store_writes (trace (snd run1)) = store_writes (trace (snd run2))
  /\ alerts (trace (snd run1)) = alerts (trace (snd run2)).
Proof.
  apply (notification_outcome_isolated (host_with provider_accepts)
           (host_with network_down) [asha; no_phone] "a1" "confirmed"
           (with_appointments initial [asha; no_phone])).
  reflexivity.
Defined.

(** C9.  For a record whose phone number is [null] or [undefined], with
    the credentials configured and a notification-worthy new status: the
    channel adapter catches the [TypeError] of [to.replace] and returns
    [success: false] with it, sending nothing; the notifier returns that
    result; and [updateStatus] completes normally with the write done, the
    snapshot patched and no alert. *)
Theorem missing_phone_fails_gracefully (h : host)
  (rendered : list appointment) (id newStatus : string) (m : machine)
  (apt : appointment) (message : string) :
  configured h = true ->
  committed h id newStatus = true ->
  In newStatus ["confirmed"; "completed"; "cancelled"] ->
  find (fun a => Host.id a =? id) rendered = Some apt ->
  phone apt = VNull \/ phone apt = VUndefined ->
  let exn := VError "TypeError" (type_error_message h (phone apt)) in
  let failure := VObj [("success", VBool false); ("error", exn)] in
  let m' := snd (updateStatus h rendered id newStatus m) in
  sendWhatsAppMessage h (phone apt) message m
  = (Returned failure,
     extend m [console_error "WhatsApp Service Error:" exn])
  /\ delivered failure = Some (VBool false)
  /\ sendStatusUpdateMessage h apt newStatus m
     = (Returned failure,
        extend m [notifier_called apt newStatus;
                  console_error "WhatsApp Service Error:" exn])
  /\ fst (updateStatus h rendered id newStatus m) = Returned tt
  /\ store_writes (trace m')
     = (store_writes (trace m) ++ [(id, newStatus)])%list
  /\ appointments m' = map (patch id newStatus) (appointments m)
  /\ alerts (trace m') = alerts (trace m).
Proof.
  intros Hc Hcommit Hworthy Hfind Hphone. cbv zeta.
  assert (S : forall msg m0,
             sendWhatsAppMessage h (phone apt) msg m0
             = (Returned
                  (VObj [("success", VBool false);
                         ("error",
                          VError "TypeError"
                            (type_error_message h (phone apt)))]),
                extend m0
                  [console_error "WhatsApp Service Error:"
                     (VError "TypeError"
                        (type_error_message h (phone apt)))])).
  { intros msg m0. unfold sendWhatsAppMessage.
    unfold configured in Hc. apply andb_true_iff in Hc.
    destruct Hc as [Ht Hp]. rewrite Ht, Hp. cbn [negb orb].
    destruct Hphone as [E|E]; rewrite E; run_monad; reflexivity. }
  split; [apply S|]. split; [reflexivity|]. split.
  - unfold sendStatusUpdateMessage. unfold bind at 1. rewrite emit_run.
    simpl in Hworthy.
    destruct Hworthy as [E|[E|[E|[]]]]; subst newStatus;
      cbn [String.eqb Ascii.eqb Bool.eqb]; rewrite S, extend_extend;
      reflexivity.
  - destruct (updateStatus_run h rendered id newStatus m)
      as (evs & Hrun & Hw & Ha & _).
    rewrite Hcommit in Hrun, Ha. rewrite Hrun. cbn [fst snd].
    split; [reflexivity|].
    cbn [extend trace with_appointments appointments].
    change (store_update id newStatus :: evs)
      with ([store_update id newStatus] ++ evs)%list.
    autorewrite with trace_proj. rewrite Hw, Ha.
    repeat split; simpl; now rewrite ?app_nil_r.
Qed.

Lemma missing_phone_fails_gracefully_witness :
  let h := host_with provider_accepts in
  let m := with_appointments initial [asha; no_phone] in
  fst (sendWhatsAppMessage h VNull "hello" m)
  = Returned (VObj [("success", VBool false);
                    ("error", VError "TypeError" "to.replace is not a function")])
  /\ fst (updateStatus h [asha; no_phone] "a2" "cancelled" m) = Returned tt
  /\ appointments (snd (updateStatus h [asha; no_phone] "a2" "cancelled" m))
     = [asha; with_status no_phone "cancelled"].
Proof.
  cbv zeta.
  destruct (missing_phone_fails_gracefully (host_with provider_accepts)
              [asha; no_phone] "a2" "cancelled"
              (with_appointments initial [asha; no_phone]) no_phone "hello"
              eq_refl eq_refl (or_intror (or_intror (or_introl eq_refl)))
              eq_refl (or_introl eq_refl))
    as (Hsend & _ & _ & Hret & _ & Hsnap & _).
  split; [exact (f_equal fst Hsend)|]. split; [exact Hret | exact Hsnap].
Defined.

(* ================================================================== *)
(** ** Scenarios *)
(* ================================================================== *)

(** The end-to-end scenario of the specification: one write, the record
    confirmed, one request to ["919876543210"] whose text says
    CONFIRMED. *)
Example scenario_confirm_asha :
  let h := host_with provider_accepts in
  let m' := snd (updateStatus h [asha] "a1" "confirmed"
                   (with_appointments initial [asha])) in
  store_writes (trace m') = [("a1", "confirmed")]
  /\ map status (appointments m') = ["confirmed"]
  /\ fetches (trace m')
     = [message_request h "919876543210"
          "Hello Asha, your appointment with Dr. Vaibbhav Guray on 1/5/2025 at our Pune center has been CONFIRMED. We look forward to seeing you!"]
  /\ alerts (trace m') = [].
Proof. vm_compute. repeat split. Qed.

(** Calling it twice sends twice: there is no deduplication. *)
Example scenario_confirm_twice :
  let h := host_with provider_accepts in
  let m1 := snd (updateStatus h [asha] "a1" "confirmed"
                   (with_appointments initial [asha])) in
  let m2 := snd (updateStatus h (appointments m1) "a1" "confirmed" m1) in
  List.length (fetches (trace m2)) = 2%nat
  /\ List.length (notifier_calls (trace m2)) = 2%nat.
Proof. vm_compute. split; reflexivity. Qed.

(** A write the store refuses: the snapshot stays, the operator is
    alerted, nothing is sent. *)
Example scenario_store_down :
  let m := with_appointments initial [asha] in
  let m' := snd (updateStatus host_store_down [asha] "a1" "confirmed" m) in
  appointments m' = [asha]
  /\ alerts (trace m') = ["Failed to update status. Please try again."]
  /\ notifier_calls (trace m') = []
  /\ fetches (trace m') = [].
Proof. vm_compute. repeat split. Qed.

(** A refresh the store refuses, and one it serves. *)
Example scenario_refresh :
  let m := with_appointments initial [asha] in
  react_state (snd (fetchAppointments host_store_down m))
  = ([asha], false,
     VStr "Failed to load appointments. Please try again.", "all", false)
  /\ react_state (snd (fetchAppointments (host_with provider_accepts) m))
     = ([asha; no_phone], false, VNull, "all", false).
Proof. vm_compute. split; reflexivity. Qed.

(** Without credentials the notifier still runs, and only warns. *)
Example scenario_unconfigured :
  let m' := snd (updateStatus host_unconfigured [asha] "a1" "cancelled"
                   (with_appointments initial [asha])) in
  map status (appointments m') = ["cancelled"]
  /\ fetches (trace m') = []
  /\ List.length (notifier_calls (trace m')) = 1%nat
  /\ alerts (trace m') = [].
Proof. vm_compute. repeat split. Qed.

(* ================================================================== *)
(** ** Further properties: strings *)
(* ================================================================== *)

Lemma string_app_assoc (a b c : string) : (a ++ b) ++ c = a ++ b ++ c.
Proof. induction a as [|x a IH]; simpl; [reflexivity | now rewrite IH]. Qed.

Lemma string_length_app (a b : string) :
  String.length (a ++ b) = (String.length a + String.length b)%nat.
Proof. induction a as [|x a IH]; simpl; [reflexivity | now rewrite IH]. Qed.

Lemma substring_prefix (s q : string) :
  substring 0 (String.length s) (s ++ q) = s.
Proof.
  induction s as [|x s IH]; simpl.
  - now destruct q.
  - now rewrite IH.
Qed.

Lemma substring_skip (p s q : string) :
  substring (String.length p) (String.length s) (p ++ s ++ q) = s.
Proof.
  induction p as [|x p IH]; simpl; [apply substring_prefix | exact IH].
Qed.

(** A string includes each piece it was concatenated from. *)
Lemma includes_piece (p s q : string) : includes (p ++ s ++ q) s = true.
Proof.
  unfold includes. destruct (index 0 s (p ++ s ++ q)) eqn:E; [reflexivity|].
  exfalso. destruct s as [|x s].
  - apply index_correct4 in E. lia.
  - apply (index_correct3 0 (String.length p)) in E;
      [|discriminate|lia].
    apply E, substring_skip.
Qed.

Lemma replace_non_digits_app (a b : string) :
  replace_non_digits (a ++ b) = replace_non_digits a ++ replace_non_digits b.
Proof.
  induction a as [|x a IH]; simpl; [reflexivity|].
  destruct (is_digit x); simpl; now rewrite IH.
Qed.

(** X1.  A ten-digit number and the same number written with the country
    code in front (in any punctuation, such as ["+91 "] or ["91-"]) are
    sent to the same destination. *)
Theorem normalize_country_code (pre s : string) :
  replace_non_digits pre = "91" ->
  String.length (replace_non_digits s) = 10%nat ->
  normalize (pre ++ s) = normalize s
  /\ normalize s = "91" ++ replace_non_digits s.
Proof.
  intros Hpre Hlen. unfold normalize, formattedPhone.
  rewrite replace_non_digits_app, Hpre, string_length_app, Hlen.
  simpl. split; reflexivity.
Qed.

Lemma normalize_country_code_witness :
  normalize ("+91 " ++ "98765 43210") = normalize "98765 43210"
  /\ normalize "98765 43210" = "91" ++ replace_non_digits "98765 43210".
Proof.
  apply (normalize_country_code "+91 " "98765 43210"); reflexivity.
Defined.

Lemma no_digits_empty (to : string) :
  List.filter is_digit (list_ascii_of_string to) = [] -> normalize to = "".
Proof.
  intros H. rewrite <- replace_non_digits_filter in H.
  unfold normalize. destruct (replace_non_digits to); [reflexivity|].
  discriminate H.
Qed.

(* ================================================================== *)
(** ** Further properties: the channel adapter and the notifier *)
(* ================================================================== *)

(** Every run of the channel adapter: the result, the request sent (one
    when the credentials are configured and the destination is a string,
    none otherwise) and the console lines (one unless the message went
    out). *)
Lemma sendWhatsAppMessage_cases (h : host) (to : value) (message : string)
  (m : machine) :
  exists r evs,
    sendWhatsAppMessage h to message m = (Returned r, extend m evs)
    /\ fetches evs
       = (if configured h then
            match to with
            | VStr s => [message_request h (normalize s) message]
            | _ => []
            end
          else [])
    /\ List.length (console_lines evs) = (if succeeded r then 0 else 1)%nat
    /\ Forall channel_event evs.
Proof.
  unfold sendWhatsAppMessage, configured.
  destruct (truthy (WHATSAPP_TOKEN h)), (truthy (PHONE_NUMBER_ID h));
    cbn [negb orb andb]; run_monad;
    try (do 2 eexists; split; [reflexivity|];
         repeat split; repeat constructor).
  destruct to; run_monad;
    try (do 2 eexists; split; [reflexivity|];
         repeat split; repeat constructor).
  fold (normalize s).
  destruct (fetch h (message_request h (normalize s) message))
    as [resp|reason]; run_monad;
    [destruct (json resp) as [data|reason]; run_monad;
     [destruct (ok resp); cbn [negb]; run_monad|]|];
    unfold extend; rewrite <- ?app_assoc;
    (do 2 eexists; split; [reflexivity|]);
    repeat split; repeat constructor.
Qed.

(** X2.  The adapter does not validate the destination: a string without
    any digit is still sent, as the empty destination, when the
    credentials are configured. *)
Theorem no_digit_destination_still_sent (h : host) (to message : string)
  (m : machine) :
  configured h = true ->
  List.filter is_digit (list_ascii_of_string to) = [] ->
  fetches (trace (snd (sendWhatsAppMessage h (VStr to) message m)))
  = (fetches (trace m) ++ [message_request h "" message])%list.
Proof.
  intros Hc Hd.
  destruct (sendWhatsAppMessage_cases h (VStr to) message m)
    as (r & evs & Hrun & Hf & _).
  rewrite Hrun. cbn [snd extend trace]. autorewrite with trace_proj.
  now rewrite Hf, Hc, (no_digits_empty to Hd).
Qed.

Lemma no_digit_destination_still_sent_witness :
  fetches (trace (snd (sendWhatsAppMessage (host_with provider_accepts)
                         (VStr "n/a") "hello" initial)))
  = (fetches (trace initial)
     ++ [message_request (host_with provider_accepts) "" "hello"])%list.
Proof.
  apply (no_digit_destination_still_sent (host_with provider_accepts)
           "n/a" "hello" initial); reflexivity.
Defined.

(** X3.  The adapter makes a single attempt and logs every failure: each
    call sends at most one request (none for a destination that is not a
    string), and writes exactly one console line when the result is not a
    success and none when it is. *)
Theorem send_single_attempt_logged (h : host) (to : value)
  (message : string) (m : machine) :
  exists r m',
    sendWhatsAppMessage h to message m = (Returned r, m')
    /\ List.length (fetches (trace m'))
       = (List.length (fetches (trace m))
          + (if configured h then
               match to with VStr _ => 1 | _ => 0 end
             else 0))%nat
    /\ List.length (console_lines (trace m'))
       = (List.length (console_lines (trace m))
          + (if succeeded r then 0 else 1))%nat.
Proof.
  destruct (sendWhatsAppMessage_cases h to message m)
    as (r & evs & Hrun & Hf & Hc & _).
  exists r, (extend m evs). split; [exact Hrun|].
  cbn [extend trace]. unfold console_lines in *.
  rewrite fetches_app, filter_app, !length_app, Hf, Hc.
  split; [|reflexivity].
  destruct (configured h); [destruct to|]; reflexivity.
Qed.

(** X4.  Neither the adapter nor the notifier touches the registry: the
    React state, the store writes and the alerts are what they were, for
    every input and every answer of the provider; and the notifier never
    throws. *)
Theorem channel_leaves_registry_alone (h : host) (a : appointment)
  (s : string) (to : value) (message : string) (m : machine) :
  let sent := snd (sendWhatsAppMessage h to message m) in
  let notified := snd (sendStatusUpdateMessage h a s m) in
  react_state sent = react_state m
  /\ store_writes (trace sent) = store_writes (trace m)
  /\ alerts (trace sent) = alerts (trace m)
  /\ notifier_calls (trace sent) = notifier_calls (trace m)
  /\ (exists r, fst (sendStatusUpdateMessage h a s m) = Returned r)
  /\ react_state notified = react_state m
  /\ store_writes (trace notified) = store_writes (trace m)
  /\ alerts (trace notified) = alerts (trace m).
Proof.
  cbv zeta.
  destruct (sendWhatsAppMessage_cases h to message m)
    as (r & evs & Hrun & _ & _ & Hev).
  destruct (channel_events_projections evs Hev) as (P1 & P2 & P3).
  destruct (sendStatusUpdateMessage_run h a s m)
    as (r' & evs' & Hrun' & Hev' & _).
  destruct (channel_events_projections evs' Hev') as (Q1 & Q2 & Q3).
  rewrite Hrun, Hrun'. cbn [fst snd extend trace].
  change (notifier_called a s :: evs')
    with ([notifier_called a s] ++ evs')%list.
  autorewrite with trace_proj. rewrite P1, P2, P3, Q1, Q2.
  autorewrite with trace_proj.
  repeat split; try reflexivity. now exists r'.
Qed.

Lemma includes_split (t p s q : string) :
  t = p ++ s ++ q -> includes t s = true.
Proof. intros ->. apply includes_piece. Qed.

(** The notifier is the adapter run on the record's phone number, after
    the ghost event; one equation per template. *)
Lemma sendStatusUpdateMessage_worthy (h : host) (a : appointment)
  (s : string) (m : machine) :
  In s ["confirmed"; "completed"; "cancelled"] ->
  exists message,
    sendStatusUpdateMessage h a s m
    = sendWhatsAppMessage h (phone a) message
        (extend m [notifier_called a s])
    /\ includes message (full_name a) = true
    /\ (s = "confirmed" ->
        message = confirmed_message (full_name a)
                    (dateStr h (preferred_date a)) (location a))
    /\ (s = "cancelled" ->
        message = cancelled_message (full_name a)
                    (dateStr h (preferred_date a)))
    /\ (s = "completed" -> message = completed_message (full_name a)).
Proof.
  simpl. intros [E|[E|[E|[]]]]; subst s; eexists;
    (split; [reflexivity|]);
    (split; [eapply includes_split with (p := "Hello "); reflexivity|]);
    repeat split; intros; try reflexivity; discriminate.
Qed.

(** X5.  The notifier never throws; it returns [undefined] exactly for
    the statuses outside confirmed, completed and cancelled, and for
    these three a result object whose [success] is a boolean. *)
Theorem notifier_result_shape (h : host) (a : appointment) (s : string)
  (m : machine) :
  exists r,
    fst (sendStatusUpdateMessage h a s m) = Returned r
    /\ (if notification_worthy s
        then exists b, delivered r = Some (VBool b)
        else r = VUndefined)
    /\ (r = VUndefined <-> notification_worthy s = false).
Proof.
  destruct (notification_worthy s) eqn:W.
  - apply notification_worthy_spec in W.
    destruct (sendStatusUpdateMessage_worthy h a s m W)
      as (message & Hrun & _).
    destruct (sendWhatsAppMessage_run h (phone a) message
                (extend m [notifier_called a s]))
      as (r & evs & Hsend & (b & Hb) & _).
    exists r. rewrite Hrun, Hsend. split; [reflexivity|].
    split; [now exists b|].
    split; [|discriminate]. intros ->. discriminate Hb.
  - assert (N : ~ In s ["confirmed"; "completed"; "cancelled"]).
    { intros H. apply notification_worthy_spec in H. congruence. }
    destruct (not_worthy_branches s N) as (E1 & E2 & E3).
    exists VUndefined. unfold sendStatusUpdateMessage. run_monad.
    rewrite E1, E2, E3. now repeat split.
Qed.

(** X6.  With the credentials configured and a phone number that is a
    string, the notifier sends exactly one request for each of the three
    statuses, to the normalised phone number.  Its text contains the
    patient's full name; for confirmed and cancelled it names the status
    in capitals and contains the date string; for confirmed it contains
    the location. *)
Theorem notifier_sends_one_message (h : host) (a : appointment)
  (s p : string) (m : machine) :
  configured h = true ->
  phone a = VStr p ->
  In s ["confirmed"; "completed"; "cancelled"] ->
  exists message,
    fetches (trace (snd (sendStatusUpdateMessage h a s m)))
    = (fetches (trace m) ++ [message_request h (normalize p) message])%list
    /\ includes message (full_name a) = true
    /\ (s = "confirmed" ->
        includes message "CONFIRMED" = true
        /\ includes message (dateStr h (preferred_date a)) = true
        /\ includes message (to_string (location a)) = true)
    /\ (s = "cancelled" ->
        includes message "CANCELLED" = true
        /\ includes message (dateStr h (preferred_date a)) = true).
Proof.
  intros Hc Hp W.
  destruct (sendStatusUpdateMessage_worthy h a s m W)
    as (message & Hrun & Hname & Hconf & Hcanc & _).
  destruct (sendWhatsAppMessage_cases h (phone a) message
              (extend m [notifier_called a s]))
    as (r & evs & Hsend & Hf & _).
  exists message. rewrite Hrun, Hsend, extend_extend.
  cbn [snd extend trace]. autorewrite with trace_proj.
  rewrite Hf, Hc, Hp. split; [reflexivity|]. split; [exact Hname|].
  split; intros E.
  - rewrite (Hconf E). unfold confirmed_message. repeat split.
    + apply (includes_split _
               ("Hello " ++ full_name a
                ++ ", your appointment with Dr. Vaibbhav Guray on "
                ++ dateStr h (preferred_date a) ++ " at our "
                ++ to_string (location a) ++ " center has been ")
               _ ". We look forward to seeing you!").
      rewrite !string_app_assoc. reflexivity.
    + apply (includes_split _
               ("Hello " ++ full_name a
                ++ ", your appointment with Dr. Vaibbhav Guray on ")
               _ (" at our " ++ to_string (location a)
                  ++ " center has been CONFIRMED. We look forward to seeing you!")).
      rewrite !string_app_assoc. reflexivity.
    + apply (includes_split _
               ("Hello " ++ full_name a
                ++ ", your appointment with Dr. Vaibbhav Guray on "
                ++ dateStr h (preferred_date a) ++ " at our ")
               _ " center has been CONFIRMED. We look forward to seeing you!").
      rewrite !string_app_assoc. reflexivity.
  - rewrite (Hcanc E). unfold cancelled_message. split.
    + apply (includes_split _
               ("Hello " ++ full_name a
                ++ ", we are sorry to inform you that your appointment with Dr. Vaibbhav Guray on "
                ++ dateStr h (preferred_date a) ++ " has been ")
               _ ". Please contact us to reschedule.").
      rewrite !string_app_assoc. reflexivity.
    + apply (includes_split _
               ("Hello " ++ full_name a
                ++ ", we are sorry to inform you that your appointment with Dr. Vaibbhav Guray on ")
               _ " has been CANCELLED. Please contact us to reschedule.").
      rewrite !string_app_assoc. reflexivity.
Qed.

Lemma notifier_sends_one_message_witness :
  exists message,
    fetches (trace (snd (sendStatusUpdateMessage (host_with provider_rejects)
                           asha "cancelled" initial)))
    = (fetches (trace initial)
       ++ [message_request (host_with provider_rejects)
             (normalize "9876543210") message])%list
    /\ includes message "Asha" = true
    /\ includes message "CANCELLED" = true.
Proof.
  destruct (notifier_sends_one_message (host_with provider_rejects) asha
              "cancelled" "9876543210" initial eq_refl eq_refl
              (or_intror (or_intror (or_introl eq_refl))))
    as (message & Hf & Hn & _ & Hcanc).
  exists message. split; [exact Hf|]. split; [exact Hn|].
  exact (proj1 (Hcanc eq_refl)).
Defined.

(* ================================================================== *)
(** ** Further properties: [updateStatus] *)
(* ================================================================== *)

(** The error the [catch] block of [updateStatus] receives when the write
    is not committed. *)
Lemma updateStatus_not_committed (h : host) (rendered : list appointment)
  (id newStatus : string) (m : machine) :
  committed h id newStatus = false ->
  exists err,
    (update_appointment h id newStatus = store_rejects err
     \/ exists data, update_appointment h id newStatus
                     = store_resolves data err /\ truthy err = true)
    /\ updateStatus h rendered id newStatus m
       = (Returned tt,
          extend m [store_update id newStatus;
                    console_error "Error updating status:" err;
                    alert "Failed to update status. Please try again."]).
Proof.
  unfold committed, updateStatus. intros C.
  destruct (update_appointment h id newStatus) as [data err|reason] eqn:E.
  - destruct (truthy err) eqn:T; [|discriminate C].
    exists err. split; [right; now exists data|].
    run_monad. rewrite ?E, ?T. run_monad.
    unfold extend. rewrite <- !app_assoc. reflexivity.
  - exists reason. split; [now left|].
    run_monad. rewrite ?E. run_monad.
    unfold extend. rewrite <- !app_assoc. reflexivity.
Qed.

(** When the write is committed, the record is found and the status is
    one of the three, the rest of [updateStatus] is the notifier run on
    the patched machine. *)
Lemma updateStatus_notifies (h : host) (rendered : list appointment)
  (id newStatus : string) (m : machine) (apt : appointment) :
  committed h id newStatus = true ->
  find (fun a => Host.id a =? id) rendered = Some apt ->
  notification_worthy newStatus = true ->
  snd (updateStatus h rendered id newStatus m)
  = snd (sendStatusUpdateMessage h apt newStatus
           (extend (with_appointments m
                      (map (patch id newStatus) (appointments m)))
              [store_update id newStatus])).
Proof.
  unfold committed, updateStatus. intros C F W.
  destruct (update_appointment h id newStatus) as [data err|reason] eqn:E;
    [|discriminate C].
  destruct (truthy err) eqn:T; [discriminate C|].
  rewrite F, W.
  unfold try_catch, bind at 1. unfold await_store, bind at 1.
  rewrite emit_run. rewrite ?E. unfold ret at 1. rewrite ?T.
  unfold bind at 1. unfold setAppointments at 1. unfold bind at 1.
  match goal with
  | |- context [sendStatusUpdateMessage h apt newStatus ?m1] =>
      change m1
        with (extend (with_appointments m
                        (map (patch id newStatus) (appointments m)))
                [store_update id newStatus]);
      destruct (sendStatusUpdateMessage_run h apt newStatus
                  (extend (with_appointments m
                             (map (patch id newStatus) (appointments m)))
                     [store_update id newStatus]))
        as (r & evs & Hrun & _)
  end.
  rewrite Hrun. reflexivity.
Qed.

(** When the id is not in the rendered snapshot or the status is not one
    of the three, a committed [updateStatus] writes, patches and stops. *)
Lemma updateStatus_silent (h : host) (rendered : list appointment)
  (id newStatus : string) (m : machine) :
  committed h id newStatus = true ->
  find (fun a => Host.id a =? id) rendered = None
  \/ notification_worthy newStatus = false ->
  updateStatus h rendered id newStatus m
  = (Returned tt,
     extend (with_appointments m
               (map (patch id newStatus) (appointments m)))
       [store_update id newStatus]).
Proof.
  unfold committed, updateStatus. intros C H.
  destruct (update_appointment h id newStatus) as [data err|reason] eqn:E;
    [|discriminate C].
  destruct (truthy err) eqn:T; [discriminate C|].
  run_monad. rewrite ?E. run_monad. rewrite ?T. run_monad.
  destruct H as [F|W].
  - rewrite F. reflexivity.
  - rewrite W. now destruct (find _ rendered).
Qed.

(** X7.  When the store does not commit the write (it answers with an
    error, or the query throws), [updateStatus] still completes normally:
    the React state is untouched, the error goes to the console, the
    operator gets exactly one alert, the notifier is not called and
    nothing is sent. *)
Theorem updateStatus_failure (h : host) (rendered : list appointment)
  (id newStatus : string) (m : machine) :
  committed h id newStatus = false ->
  let m' := snd (updateStatus h rendered id newStatus m) in
  fst (updateStatus h rendered id newStatus m) = Returned tt
  /\ react_state m' = react_state m
  /\ store_writes (trace m')
     = (store_writes (trace m) ++ [(id, newStatus)])%list
  /\ alerts (trace m')
     = (alerts (trace m)
        ++ ["Failed to update status. Please try again."])%list
  /\ notifier_calls (trace m') = notifier_calls (trace m)
  /\ fetches (trace m') = fetches (trace m)
  /\ List.length (console_lines (trace m'))
     = S (List.length (console_lines (trace m))).
Proof.
  intros C. cbv zeta.
  destruct (updateStatus_not_committed h rendered id newStatus m C)
    as (err & _ & Hrun).
  rewrite Hrun. cbn [fst snd extend trace]. unfold console_lines.
  rewrite filter_app, length_app.
  autorewrite with trace_proj. simpl. rewrite ?app_nil_r.
  repeat split; lia.
Qed.

Lemma updateStatus_failure_witness :
  let m := with_appointments initial [asha] in
  let m' := snd (updateStatus host_store_down [asha] "a1" "confirmed" m) in
  fst (updateStatus host_store_down [asha] "a1" "confirmed" m) = Returned tt
  /\ react_state m' = react_state m
  /\ store_writes (trace m')
     = (store_writes (trace m) ++ [("a1", "confirmed")])%list
  /\ alerts (trace m')
     = (alerts (trace m)
        ++ ["Failed to update status. Please try again."])%list
  /\ notifier_calls (trace m') = notifier_calls (trace m)
  /\ fetches (trace m') = fetches (trace m)
  /\ List.length (console_lines (trace m'))
     = S (List.length (console_lines (trace m))).
Proof.
  apply (updateStatus_failure host_store_down [asha] "a1" "confirmed"
           (with_appointments initial [asha])).
  reflexivity.
Defined.

Lemma map_id_patch (id newStatus : string) (l : list appointment) :
  map Host.id (map (patch id newStatus) l) = map Host.id l.
Proof.
  rewrite map_map. apply map_ext. intros a. unfold patch.
  now destruct (Host.id a =? id).
Qed.

(** X8.  Whatever the store and the provider answer, [updateStatus]
    never throws, never adds, removes or reorders a record (the ids of the
    snapshot are the same list), never changes [loading], [error],
    [filter] or [refreshing], and attempts exactly one store write. *)
Theorem updateStatus_frame (h : host) (rendered : list appointment)
  (id newStatus : string) (m : machine) :
  let m' := snd (updateStatus h rendered id newStatus m) in
  fst (updateStatus h rendered id newStatus m) = Returned tt
  /\ map Host.id (appointments m') = map Host.id (appointments m)
  /\ loading m' = loading m
  /\ error m' = error m
  /\ Host.filter m' = Host.filter m
  /\ refreshing m' = refreshing m
  /\ store_writes (trace m')
     = (store_writes (trace m) ++ [(id, newStatus)])%list.
Proof.
  cbv zeta.
  destruct (updateStatus_run h rendered id newStatus m)
    as (evs & Hrun & Hw & _).
  rewrite Hrun. cbn [fst snd extend with_appointments appointments loading
                       error Host.filter refreshing trace].
  change (store_update id newStatus :: evs)
    with ([store_update id newStatus] ++ evs)%list.
  autorewrite with trace_proj. rewrite Hw.
  repeat split; try reflexivity.
  destruct (committed h id newStatus); [apply map_id_patch | reflexivity].
Qed.

(** X9.  One call of [updateStatus] sends at most one message, and none
    unless the write was committed, the status is one of the three and
    the id is in the rendered snapshot. *)
Theorem updateStatus_sends_at_most_once (h : host)
  (rendered : list appointment) (id newStatus : string) (m : machine) :
  let m' := snd (updateStatus h rendered id newStatus m) in
  let due :=
    committed h id newStatus && notification_worthy newStatus
    && match find (fun a => Host.id a =? id) rendered with
       | Some _ => true
       | None => false
       end in
  (List.length (fetches (trace m'))
   <= List.length (fetches (trace m)) + (if due then 1 else 0))%nat
  /\ (List.length (fetches (trace m)) <= List.length (fetches (trace m')))%nat.
Proof.
  cbv zeta.
  destruct (committed h id newStatus) eqn:C.
  - destruct (find (fun a => Host.id a =? id) rendered) as [apt|] eqn:F;
      [destruct (notification_worthy newStatus) eqn:W|].
    + rewrite (updateStatus_notifies h rendered id newStatus m apt C F W).
      destruct (sendStatusUpdateMessage_run h apt newStatus
                  (extend (with_appointments m
                             (map (patch id newStatus) (appointments m)))
                     [store_update id newStatus]))
        as (r & evs & Hrun & _ & Hlen).
      rewrite Hrun. cbn [snd extend with_appointments trace andb].
      change (notifier_called apt newStatus :: evs)
        with ([notifier_called apt newStatus] ++ evs)%list.
      autorewrite with trace_proj. rewrite !length_app. simpl. lia.
    + rewrite (updateStatus_silent h rendered id newStatus m C
                 (or_intror W)).
      cbn [snd extend with_appointments trace andb].
      autorewrite with trace_proj. simpl. rewrite ?app_nil_r. lia.
    + rewrite (updateStatus_silent h rendered id newStatus m C
                 (or_introl F)).
      cbn [snd extend with_appointments trace andb].
      autorewrite with trace_proj. simpl. rewrite ?app_nil_r.
      destruct (notification_worthy newStatus); simpl; lia.
  - destruct (updateStatus_not_committed h rendered id newStatus m C)
      as (err & _ & Hrun).
    rewrite Hrun. cbn [snd extend trace andb].
    autorewrite with trace_proj. simpl. rewrite ?app_nil_r. lia.
Qed.

(** X10.  End to end: when the store commits, the id is in the rendered
    snapshot, the status is one of the three, the credentials are
    configured and the record's phone number is a string, [updateStatus]
    patches the snapshot and sends exactly one request, to the normalised
    phone number of the record as rendered, with a text that contains the
    patient's full name. *)
Theorem updateStatus_delivers (h : host) (rendered : list appointment)
  (id newStatus p : string) (m : machine) (apt : appointment) :
  committed h id newStatus = true ->
  find (fun a => Host.id a =? id) rendered = Some apt ->
  In newStatus ["confirmed"; "completed"; "cancelled"] ->
  configured h = true ->
  phone apt = VStr p ->
  let m' := snd (updateStatus h rendered id newStatus m) in
  appointments m' = map (patch id newStatus) (appointments m)
  /\ exists message,
       fetches (trace m')
       = (fetches (trace m)
          ++ [message_request h (normalize p) message])%list
       /\ includes message (full_name apt) = true.
Proof.
  intros C F W Hc Hp. cbv zeta.
  rewrite (updateStatus_notifies h rendered id newStatus m apt C F
             (proj2 (notification_worthy_spec newStatus) W)).
  destruct (sendStatusUpdateMessage_worthy h apt newStatus
              (extend (with_appointments m
                         (map (patch id newStatus) (appointments m)))
                 [store_update id newStatus]) W)
    as (message & Hrun & Hname & _).
  rewrite Hrun, extend_extend.
  destruct (sendWhatsAppMessage_cases h (phone apt) message
              (extend (with_appointments m
                         (map (patch id newStatus) (appointments m)))
                 [store_update id newStatus;
                  notifier_called apt newStatus]))
    as (r & evs & Hsend & Hf & _).
  simpl app. rewrite Hsend.
  cbn [snd extend with_appointments appointments trace].
  split; [reflexivity|]. exists message. split; [|exact Hname].
  autorewrite with trace_proj. rewrite Hf, Hc, Hp. reflexivity.
Qed.

Lemma updateStatus_delivers_witness :
  let h := host_with provider_rejects in
  let m := with_appointments initial [asha; no_phone] in
  let m' := snd (updateStatus h [asha; no_phone] "a1" "completed" m) in
  appointments m' = map (patch "a1" "completed") (appointments m)
  /\ exists message,
       fetches (trace m')
       = (fetches (trace m)
          ++ [message_request h (normalize "9876543210") message])%list
       /\ includes message (full_name asha) = true.
Proof.
  apply (updateStatus_delivers (host_with provider_rejects)
           [asha; no_phone] "a1" "completed" "9876543210"
           (with_appointments initial [asha; no_phone]) asha);
    try reflexivity.
  simpl. auto.
Defined.

Lemma patch_patch (id s1 s2 : string) (a : appointment) :
  patch id s2 (patch id s1 a) = patch id s2 a.
Proof.
  unfold patch. destruct (Host.id a =? id) eqn:E; simpl; now rewrite E.
Qed.

Lemma patch_comm (i j s t : string) (a : appointment) :
  i <> j -> patch i s (patch j t a) = patch j t (patch i s a).
Proof.
  intros N. unfold patch.
  destruct (Host.id a =? i) eqn:Ei, (Host.id a =? j) eqn:Ej; simpl;
    rewrite ?Ei, ?Ej; try reflexivity.
  apply String.eqb_eq in Ei, Ej. congruence.
Qed.

Lemma updateStatus_snapshot (h : host) (rendered : list appointment)
  (id newStatus : string) (m : machine) :
  committed h id newStatus = true ->
  appointments (snd (updateStatus h rendered id newStatus m))
  = map (patch id newStatus) (appointments m).
Proof.
  intros C.
  destruct (updateStatus_run h rendered id newStatus m) as (evs & Hrun & _).
  rewrite Hrun, C. reflexivity.
Qed.

(** X11.  Committed updates compose on the snapshot as their patches do:
    two updates of the same id leave what the second alone would leave
    (the last writer wins, and repeating an update changes nothing more),
    and updates of different ids give the same snapshot in either order.
    The snapshots the two calls were rendered from do not matter. *)
Theorem updateStatus_compose (h : host) (r1 r2 : list appointment)
  (i j s t : string) (m : machine) :
  committed h i s = true ->
  committed h j t = true ->
  let then_ a b := snd (b (snd (a m))) in
  (i = j ->
   appointments (then_ (updateStatus h r1 i s) (updateStatus h r2 j t))
   = map (patch j t) (appointments m))
  /\ (i <> j ->
      appointments (then_ (updateStatus h r1 i s) (updateStatus h r2 j t))
      = appointments (then_ (updateStatus h r2 j t) (updateStatus h r1 i s))).
Proof.
  intros Ci Cj. cbv beta zeta.
  rewrite !updateStatus_snapshot by assumption.
  rewrite !map_map. split; intros E.
  - subst j. apply map_ext. intros a. apply patch_patch.
  - apply map_ext. intros a. symmetry. now apply patch_comm.
Qed.

Lemma updateStatus_compose_witness :
  let h := host_with provider_accepts in
  let m := with_appointments initial [asha; no_phone] in
  appointments
    (snd (updateStatus h [asha] "a1" "cancelled"
            (snd (updateStatus h [asha] "a1" "confirmed" m))))
  = map (patch "a1" "cancelled") (appointments m)
  /\ appointments
       (snd (updateStatus h [] "a2" "cancelled"
               (snd (updateStatus h [asha] "a1" "confirmed" m))))
     = appointments
         (snd (updateStatus h [asha] "a1" "confirmed"
                 (snd (updateStatus h [] "a2" "cancelled" m)))).
Proof.
  cbv zeta. split.
  - apply (proj1 (updateStatus_compose (host_with provider_accepts)
                    [asha] [asha] "a1" "a1" "confirmed" "cancelled"
                    (with_appointments initial [asha; no_phone])
                    eq_refl eq_refl)).
    reflexivity.
  - apply (proj2 (updateStatus_compose (host_with provider_accepts)
                    [asha] [] "a1" "a2" "confirmed" "cancelled"
                    (with_appointments initial [asha; no_phone])
                    eq_refl eq_refl)).
    discriminate.
Defined.

(* ================================================================== *)
(** ** Further properties: the derived views *)
(* ================================================================== *)

Ltac decide_statuses :=
  repeat match goal with
         | H : (_ =? _) = true |- _ => apply String.eqb_eq in H
         | H : (_ =? _) = false |- _ => apply String.eqb_neq in H
         end;
  subst; try congruence; try discriminate.

(** X12.  The four status tiles and the records whose status is none of
    the four add up to the total: the tiles never count a record twice,
    and they add up to the total exactly when every status is one of the
    four. *)
Theorem stats_partition (l : list appointment) :
  let others :=
    List.length
      (List.filter
         (fun a => negb (existsb (String.eqb (status a)) statuses)) l) in
  total (stats l)
  = (pending (stats l) + confirmed (stats l) + completed (stats l)
     + cancelled (stats l) + others)%nat
  /\ (total (stats l)
      = (pending (stats l) + confirmed (stats l) + completed (stats l)
         + cancelled (stats l))%nat
      <-> Forall (fun a => In (status a) statuses) l).
Proof.
  cbv zeta. unfold stats. cbn [total pending confirmed completed cancelled].
  set (other := fun a => negb (existsb (String.eqb (status a)) statuses)).
  assert (P : List.length l
              = (count_status "pending" l + count_status "confirmed" l
                 + count_status "completed" l + count_status "cancelled" l
                 + List.length (List.filter other l))%nat).
  { unfold count_status, other, statuses.
    induction l as [|a l IH]; [reflexivity|].
    cbn [List.filter List.length existsb] in *.
    destruct (status a =? "pending") eqn:E1,
             (status a =? "confirmed") eqn:E2,
             (status a =? "completed") eqn:E3,
             (status a =? "cancelled") eqn:E4;
      cbn [orb negb List.length]; try lia; exfalso; decide_statuses. }
  split; [exact P|].
  rewrite P at 1. split.
  - intros H.
    assert (Z : List.length (List.filter other l) = 0%nat) by lia.
    apply Forall_forall. intros a Ha.
    destruct (existsb (String.eqb (status a)) statuses) eqn:E.
    + apply existsb_exists in E. destruct E as (x & Hx & Ex).
      apply String.eqb_eq in Ex. now subst x.
    + exfalso.
      assert (I : In a (List.filter other l))
        by (apply filter_In; split; [exact Ha | unfold other; now rewrite E]).
      destruct (List.filter other l); [contradiction | discriminate Z].
  - intros H.
    replace (List.filter other l) with (@nil appointment); [simpl; lia|].
    symmetry. clear P. induction H as [|a l Ha _ IH]; [reflexivity|].
    cbn [List.filter]. unfold other at 1.
    replace (existsb (String.eqb (status a)) statuses) with true;
      [exact IH|].
    symmetry. apply existsb_exists. exists (status a).
    split; [exact Ha | apply String.eqb_refl].
Qed.

(** X13.  The count on each tab is the number of rows the tab shows: the
    filter [all] shows the whole snapshot, in order, and the filter of a
    status shows as many rows as the tile of that status counts, all of
    them with that status. *)
Theorem filtered_rows_match_tabs (l : list appointment) :
  filteredAppointments "all" l = l
  /\ List.length (filteredAppointments "all" l) = total (stats l)
  /\ List.length (filteredAppointments "pending" l) = pending (stats l)
  /\ List.length (filteredAppointments "confirmed" l) = confirmed (stats l)
  /\ List.length (filteredAppointments "completed" l) = completed (stats l)
  /\ List.length (filteredAppointments "cancelled" l) = cancelled (stats l)
  /\ (forall f a,
         f <> "all" ->
         (In a (filteredAppointments f l) <-> In a l /\ status a = f)).
Proof.
  assert (A : filteredAppointments "all" l = l)
    by (unfold filteredAppointments; cbn [String.eqb Ascii.eqb Bool.eqb];
        apply filter_true).
  split; [exact A|]. split; [now rewrite A|].
  repeat split; try reflexivity.
  - unfold filteredAppointments in H0. apply filter_In in H0. tauto.
  - unfold filteredAppointments in H0. apply filter_In in H0.
    destruct H0 as [_ E]. apply String.eqb_neq in H. rewrite H in E.
    now apply String.eqb_eq.
  - intros [Ha E]. unfold filteredAppointments. apply filter_In.
    split; [exact Ha|]. apply String.eqb_neq in H. rewrite H.
    now apply String.eqb_eq.
Qed.

Lemma filtered_rows_match_tabs_witness :
  In asha (filteredAppointments "pending" [asha; no_phone])
  <-> In asha [asha; no_phone] /\ status asha = "pending".
Proof.
  apply (filtered_rows_match_tabs [asha; no_phone]). discriminate.
Defined.

(** X14.  After a patch the tiles move as one expects: the total is
    unchanged, and the count of a status is the number of records of
    other ids that have it, plus, for the new status, the number of
    records with the patched id. *)
Theorem stats_after_patch (id newStatus s : string) (l : list appointment) :
  total (stats (map (patch id newStatus) l)) = total (stats l)
  /\ count_status s (map (patch id newStatus) l)
     = (count_status s (without_id id l)
        + if (s =? newStatus)%string then List.length (with_id id l) else 0)%nat.
Proof.
  split; [apply length_map|].
  unfold count_status, without_id, with_id.
  induction l as [|a l IH]; [now destruct (s =? newStatus)|].
  cbn [map List.filter]. unfold patch at 1.
  destruct (Host.id a =? id) eqn:E; cbn [negb status with_status].
  - rewrite (String.eqb_sym newStatus s).
    destruct (s =? newStatus) eqn:Es; cbn [List.length]; rewrite IH;
      rewrite ?Es; cbn [List.length]; lia.
  - cbn [List.filter].
    destruct (status a =? s); cbn [List.length]; rewrite IH; lia.
Qed.

(** X15.  With a status tab selected, a record whose status is changed to
    another status leaves the rows shown, and the other rows stay as they
    were. *)
Theorem filtered_after_update (f id newStatus : string)
  (l : list appointment) :
  f <> "all" -> newStatus <> f ->
  filteredAppointments f (map (patch id newStatus) l)
  = without_id id (filteredAppointments f l).
Proof.
  intros Hall Hnew. apply String.eqb_neq in Hall, Hnew.
  unfold filteredAppointments, without_id. rewrite Hall.
  induction l as [|a l IH]; [reflexivity|].
  cbn [map List.filter]. unfold patch at 1.
  destruct (Host.id a =? id) eqn:E; cbn [status with_status].
  - rewrite Hnew, IH. destruct (status a =? f); [|reflexivity].
    cbn [List.filter]. now rewrite E.
  - rewrite IH. destruct (status a =? f); [|reflexivity].
    cbn [List.filter]. unfold patch. now rewrite E.
Qed.

Lemma filtered_after_update_witness :
  filteredAppointments "pending"
    (map (patch "a1" "confirmed") [asha; no_phone])
  = without_id "a1" (filteredAppointments "pending" [asha; no_phone]).
Proof.
  apply (filtered_after_update "pending" "a1" "confirmed" [asha; no_phone]);
    discriminate.
Defined.

Lemma is_upcoming_split (c : clock) (a : appointment) :
  is_upcoming c a = in_window c a && active (status a).
Proof.
  unfold is_upcoming, in_window, active.
  destruct (truthy (preferred_date a)); [|reflexivity].
  cbn [negb andb].
  destruct (time_value c (preferred_date a)) as [t|]; [|reflexivity].
  destruct (nextWeek c) as [w|].
  - reflexivity.
  - now rewrite andb_false_r.
Qed.

Lemma in_window_patch (c : clock) (id s : string) (a : appointment) :
  in_window c (patch id s a) = in_window c a.
Proof. unfold patch. now destruct (Host.id a =? id). Qed.

(** X16.  The upcoming view holds exactly the records of the snapshot
    that have a preferred date which parses to a time between now and now
    plus seven days (604 800 000 ms), both ends included, and whose status
    is pending or confirmed.  A record without a date, or with a date that
    does not parse, is never in it. *)
Theorem upcoming_window (c : clock) (l : list appointment)
  (a : appointment) :
  (Z.abs (today c + 604800000) <= 8640000000000000)%Z ->
  In a (upcomingAppointments c l)
  <-> In a l
      /\ truthy (preferred_date a) = true
      /\ (exists t,
             time_value c (preferred_date a) = Some t
             /\ (today c <= t <= today c + 604800000)%Z)
      /\ (status a = "pending" \/ status a = "confirmed").
Proof.
  intros Hclip.
  assert (W : nextWeek c = Some (today c + 604800000)%Z).
  { unfold nextWeek, time_clip.
    change (7 * 24 * 60 * 60 * 1000)%Z with 604800000%Z.
    apply Z.leb_le in Hclip. now rewrite Hclip. }
  unfold upcomingAppointments. rewrite filter_In, is_upcoming_split.
  unfold in_window, active. rewrite W.
  split.
  - intros (Ha & H). apply andb_true_iff in H. destruct H as [H Hs].
    apply andb_true_iff in H. destruct H as [Hd Ht].
    destruct (time_value c (preferred_date a)) as [t|]; [|discriminate Ht].
    apply andb_true_iff in Ht. destruct Ht as [H1 H2].
    apply Z.leb_le in H1, H2.
    repeat split; trivial.
    + exists t. split; [reflexivity | lia].
    + apply orb_true_iff in Hs.
      destruct Hs as [E|E]; apply String.eqb_eq in E; auto.
  - intros (Ha & Hd & (t & Ht & H1 & H2) & Hs). split; [exact Ha|].
    rewrite Hd, Ht. apply Z.leb_le in H1, H2. rewrite H1, H2.
    destruct Hs as [E|E]; rewrite E; reflexivity.
Qed.

Lemma upcoming_window_witness :
  In asha (upcomingAppointments new_year_2025 [asha; no_phone])
  <-> In asha [asha; no_phone]
      /\ truthy (preferred_date asha) = true
      /\ (exists t,
             time_value new_year_2025 (preferred_date asha) = Some t
             /\ (today new_year_2025 <= t
                 <= today new_year_2025 + 604800000)%Z)
      /\ (status asha = "pending" \/ status asha = "confirmed").
Proof.
  apply (upcoming_window new_year_2025 [asha; no_phone] asha).
  vm_compute. discriminate.
Defined.

(** X17.  The upcoming view is a part of the snapshot and never holds more
    records than the pending and confirmed tiles count together. *)
Theorem upcoming_bounded (c : clock) (l : list appointment) :
  incl (upcomingAppointments c l) l
  /\ (List.length (upcomingAppointments c l)
      <= pending (stats l) + confirmed (stats l))%nat.
Proof.
  split; [apply incl_filter|].
  unfold upcomingAppointments, stats, count_status.
  cbn [pending confirmed].
  induction l as [|a l IH]; [simpl; lia|].
  cbn [List.filter]. rewrite is_upcoming_split. unfold active.
  destruct (in_window c a);
    destruct (status a =? "pending") eqn:E1,
             (status a =? "confirmed") eqn:E2;
    cbn [andb orb List.length]; try lia.
Qed.

(** X18.  Changing a record to a status other than pending and confirmed
    takes it out of the upcoming view and leaves the rest of the view as
    it was. *)
Theorem upcoming_after_closing (c : clock) (id newStatus : string)
  (l : list appointment) :
  active newStatus = false ->
  upcomingAppointments c (map (patch id newStatus) l)
  = without_id id (upcomingAppointments c l).
Proof.
  intros Hs. unfold upcomingAppointments, without_id.
  induction l as [|a l IH]; [reflexivity|].
  cbn [map List.filter]. rewrite IH, !is_upcoming_split, in_window_patch.
  unfold patch.
  destruct (Host.id a =? id) eqn:E; cbn [status with_status].
  - rewrite Hs, andb_false_r.
    destruct (in_window c a && active (status a)); [|reflexivity].
    cbn [List.filter]. now rewrite E.
  - destruct (in_window c a && active (status a)); [|reflexivity].
    cbn [List.filter]. now rewrite E.
Qed.

Lemma upcoming_after_closing_witness :
  upcomingAppointments new_year_2025
    (map (patch "a1" "cancelled") [asha; no_phone])
  = without_id "a1" (upcomingAppointments new_year_2025 [asha; no_phone]).
Proof.
  apply (upcoming_after_closing new_year_2025 "a1" "cancelled"
           [asha; no_phone]).
  reflexivity.
Defined.

(** X19.  Changing a pending or confirmed record to pending or confirmed
    keeps the upcoming view: the same records in the same order, with the
    new status on that record. *)
Theorem upcoming_after_keeping (c : clock) (id newStatus : string)
  (l : list appointment) :
  active newStatus = true ->
  (forall a, In a l -> Host.id a = id -> active (status a) = true) ->
  upcomingAppointments c (map (patch id newStatus) l)
  = map (patch id newStatus) (upcomingAppointments c l).
Proof.
  intros Hs. unfold upcomingAppointments.
  induction l as [|a l IH]; intros Hl; [reflexivity|].
  cbn [map List.filter].
  rewrite IH by (intros b Hb; apply Hl; now right).
  rewrite !is_upcoming_split, in_window_patch.
  assert (E : active (status (patch id newStatus a)) = active (status a)).
  { unfold patch. destruct (Host.id a =? id) eqn:E; [|reflexivity].
    cbn [status with_status]. rewrite Hs. symmetry.
    apply Hl; [now left | now apply String.eqb_eq]. }
  rewrite E.
  now destruct (in_window c a && active (status a)).
Qed.

Lemma upcoming_after_keeping_witness :
  upcomingAppointments new_year_2025
    (map (patch "a1" "confirmed") [asha; no_phone])
  = map (patch "a1" "confirmed")
      (upcomingAppointments new_year_2025 [asha; no_phone]).
Proof.
  apply (upcoming_after_keeping new_year_2025 "a1" "confirmed"
           [asha; no_phone]).
  - reflexivity.
  - intros a [E|[E|[]]] Hid; subst a; [reflexivity | discriminate Hid].
Defined.

(* ================================================================== *)
(** ** Further properties: [fetchAppointments] and [getStatusClass] *)
(* ================================================================== *)

(** Every run of [fetchAppointments], in one equation. *)
Lemma fetchAppointments_run (h : host) (m : machine) :
  fetchAppointments h m
  = (Returned tt,
     match fetch_failure h with
     | Some err =>
         {| appointments := appointments m; loading := false;
            error := VStr "Failed to load appointments. Please try again.";
            filter := Host.filter m; refreshing := false;
            trace := trace m
                     ++ [store_select;
                         console_error "Error fetching appointments:" err] |}
     | None =>
         {| appointments :=
              match select_appointments h with
              | store_resolves (Some rows) _ => rows
              | _ => []
              end;
            loading := false; error := VNull;
            filter := Host.filter m; refreshing := false;
            trace := trace m ++ [store_select] |}
     end).
Proof.
  unfold fetchAppointments, fetch_failure.
  destruct (select_appointments h) as [data err|reason].
  - destruct (truthy err) eqn:E; run_monad; rewrite E; run_monad.
    + now rewrite <- app_assoc.
    + now destruct data.
  - run_monad. now rewrite <- app_assoc.
Qed.

(** X20.  A refresh queries the store exactly once and does nothing else
    to the outside world: no store write, no message, no alert, no call of
    the notifier; it writes one console line exactly when it fails; and it
    keeps the selected filter. *)
Theorem fetchAppointments_effects (h : host) (m : machine) :
  let m' := snd (fetchAppointments h m) in
  store_reads (trace m') = S (store_reads (trace m))
  /\ store_writes (trace m') = store_writes (trace m)
  /\ fetches (trace m') = fetches (trace m)
  /\ alerts (trace m') = alerts (trace m)
  /\ notifier_calls (trace m') = notifier_calls (trace m)
  /\ List.length (console_lines (trace m'))
     = (List.length (console_lines (trace m))
        + match fetch_failure h with Some _ => 1 | None => 0 end)%nat
  /\ Host.filter m' = Host.filter m.
Proof.
  cbv zeta. rewrite fetchAppointments_run. unfold store_reads, console_lines.
  destruct (fetch_failure h); cbn [snd trace Host.filter];
    rewrite !filter_app, !length_app;
    autorewrite with trace_proj; simpl; rewrite ?app_nil_r;
    repeat split; lia.
Qed.

(** X21.  The last fetch wins.  A refresh that succeeds replaces whatever
    the snapshot was, an optimistic patch included, by the rows the store
    returned, so the state after it does not depend on the state before
    it (the filter apart); a refresh that fails keeps the patched
    snapshot.  Refreshing twice gives the state of refreshing once. *)
Theorem refresh_after_update (h : host) (rendered : list appointment)
  (id newStatus : string) (m : machine) :
  let updated := snd (updateStatus h rendered id newStatus m) in
  let refreshed := snd (fetchAppointments h updated) in
  match fetch_failure h with
  | None =>
      react_state refreshed = react_state (snd (fetchAppointments h m))
  | Some _ =>
      appointments refreshed = appointments updated
  end
  /\ react_state (snd (fetchAppointments h refreshed))
     = react_state refreshed.
Proof.
  cbv zeta.
  destruct (updateStatus_run h rendered id newStatus m) as (evs & Hrun & _).
  rewrite Hrun, !fetchAppointments_run.
  destruct (fetch_failure h); split; reflexivity.
Qed.

Lemma own_property_classes (status : string) :
  own_property status classes
  = if existsb (String.eqb status) statuses
    then Some ("status-" ++ status) else None.
Proof.
  unfold classes, statuses. cbn [own_property existsb].
  rewrite !(String.eqb_sym status).
  destruct ("pending" =? status) eqn:E1;
    [apply String.eqb_eq in E1; now subst|].
  destruct ("confirmed" =? status) eqn:E2;
    [apply String.eqb_eq in E2; now subst|].
  destruct ("completed" =? status) eqn:E3;
    [apply String.eqb_eq in E3; now subst|].
  destruct ("cancelled" =? status) eqn:E4;
    [apply String.eqb_eq in E4; now subst|].
  reflexivity.
Qed.

(** X22.  [getStatusClass] gives each of the four statuses its own class,
    ["status-"] followed by the status, and falls back to
    ["status-pending"] for every other status, except for a status that
    is the name of a member of [Object.prototype] (such as
    ["constructor"]): for these the lookup finds the inherited member and
    the result is not a class name. *)
Theorem getStatusClass_cases (status : string) :
  (In status statuses ->
   getStatusClass status = class_name ("status-" ++ status))
  /\ (~ In status statuses -> ~ In status Object_prototype_keys ->
      getStatusClass status = class_name "status-pending")
  /\ (In status Object_prototype_keys ->
      getStatusClass status = inherited_member status).
Proof.
  unfold getStatusClass. rewrite own_property_classes.
  split; [|split].
  - intros H.
    replace (existsb (String.eqb status) statuses) with true; [reflexivity|].
    symmetry. apply existsb_exists. exists status.
    split; [exact H | apply String.eqb_refl].
  - intros H1 H2.
    destruct (existsb (String.eqb status) statuses) eqn:E.
    + exfalso. apply existsb_exists in E. destruct E as (x & Hx & Ex).
      apply String.eqb_eq in Ex. now subst x.
    + destruct (existsb (String.eqb status) Object_prototype_keys) eqn:E';
        [|reflexivity].
      exfalso. apply existsb_exists in E'. destruct E' as (x & Hx & Ex).
      apply String.eqb_eq in Ex. now subst x.
  - intros H.
    assert (E : existsb (String.eqb status) statuses = false).
    { simpl in H.
      repeat (destruct H as [H|H]; [subst status; reflexivity|]).
      contradiction. }
    rewrite E.
    replace (existsb (String.eqb status) Object_prototype_keys) with true;
      [reflexivity|].
    symmetry. apply existsb_exists. exists status.
    split; [exact H | apply String.eqb_refl].
Qed.

Lemma getStatusClass_cases_witness :
  getStatusClass "confirmed" = class_name "status-confirmed"
  /\ getStatusClass "archived" = class_name "status-pending"
  /\ getStatusClass "constructor" = inherited_member "constructor".
Proof.
  split; [|split].
  - apply (proj1 (getStatusClass_cases "confirmed")). simpl. auto.
  - apply (proj1 (proj2 (getStatusClass_cases "archived")));
      simpl; intuition discriminate.
  - apply (proj2 (proj2 (getStatusClass_cases "constructor"))).
    simpl. auto.
Defined.
